(** * Verification of the FloatPop / FloatPopManager interaction layer.

    Shallow embedding of [src/app/FloatPop.tsx] (placement and docking) and
    [src/app/FloatPopManager.ts] (click handling, source classification,
    click tolerance and feature resolution). *)

From Stdlib Require Import List String Bool ZArith QArith Qminmax Qabs Lia Lqa.
Import ListNotations.
Open Scope string_scope.

(* ------------------------------------------------------------------ *)
(** ** Placement: [FloatPop._isOutsideView], [_determineCurrentAlignment] *)

Module Placement.

Inductive Position :=
| TopLeft | TopCenter | TopRight | BottomLeft | BottomCenter | BottomRight.

Definition Position_eqb (a b : Position) : bool :=
  match a, b with
  | TopLeft, TopLeft | TopCenter, TopCenter | TopRight, TopRight
  | BottomLeft, BottomLeft | BottomCenter, BottomCenter
  | BottomRight, BottomRight => true
  | _, _ => false
  end.

Definition Qltb (x y : Q) : bool := negb (Qle_bool y x).

Record Padding := mkPadding { pad_left : Q; pad_right : Q; pad_top : Q; pad_bottom : Q }.

(** The parts of a MapView / SceneView that placement reads. *)
Record View := mkView {
  v_width : Q;
  v_height : Q;
  v_padding : Padding
}.

Record ScreenPoint := mkScreenPoint { sp_x : Q; sp_y : Q }.

Inductive Side := SRight | SLeft | STop | SBottom.

(** [_isScreenLocationWithinView] *)
Definition isScreenLocationWithinView (s : ScreenPoint) (view : View) : bool :=
  Qltb (-1) (sp_x s) && Qltb (-1) (sp_y s) &&
  Qle_bool (sp_x s) (v_width view) && Qle_bool (sp_y s) (v_height view).

(** [_isOutsideView]; the measured sizes are numbers here (no NaN). *)
Definition isOutsideView (popupHeight popupWidth : Q) (s : ScreenPoint)
    (side : Side) (view : View) : bool :=
  let padding := v_padding view in
  match side with
  | SRight => Qltb (v_width view - pad_right padding) (sp_x s + popupWidth / 2)
  | SLeft => Qltb (sp_x s - popupWidth / 2) (pad_left padding)
  | STop => Qltb (sp_y s - popupHeight) (pad_top padding)
  | SBottom => Qltb (v_height view - pad_bottom padding) (sp_y s + popupHeight)
  end.

(** The final nested conditional of [_determineCurrentAlignment]. *)
Definition combineAlignment (left right top bottom : bool) : Position :=
  if left then (if top then BottomRight else TopRight)
  else if right then (if top then BottomLeft else TopLeft)
  else if top then (if bottom then TopCenter else BottomCenter)
  else TopCenter.

(** The DOM measurements read by [_determineCurrentAlignment]:
    the container's content box and the computed style of the main
    container ([max-height] and [height], already parsed). *)
Record Measure := mkMeasure {
  m_boxW : Q;
  m_boxH : Q;
  m_mainStyle : option (Q * Q)
}.

(** [_pointerOffsetInPx] *)
Definition pointerOffsetInPx : Q := 16.

(** [popupWidth = contentBox.w + pointerOffset] *)
Definition popupWidthOf (m : Measure) : Q := m_boxW m + pointerOffsetInPx.

(** [popupHeight = Math.max(contentBox.h, contentMaxHeight, contentHeight) +
    pointerOffset]; both style values are 0 without a main container. *)
Definition popupHeightOf (m : Measure) : Q :=
  let '(contentMaxHeight, contentHeight) :=
    match m_mainStyle m with Some hs => hs | None => (0, 0) end in
  Qmax (Qmax (m_boxH m) contentMaxHeight) contentHeight + pointerOffsetInPx.

(** [_determineCurrentAlignment]; [prev] is the stored [currentAlignment]. *)
Definition determineCurrentAlignment (screenLocation : option ScreenPoint)
    (view : option View) (container : option Measure) (prev : option Position)
    : Position :=
  match screenLocation, view, container with
  | Some s, Some vw, Some m =>
      if negb (isScreenLocationWithinView s vw) then
        match prev with Some p => p | None => TopCenter end
      else
        let popupWidth := popupWidthOf m in
        let popupHeight := popupHeightOf m in
        let r := isOutsideView popupHeight popupWidth s SRight vw in
        let l := isOutsideView popupHeight popupWidth s SLeft vw in
        let t := isOutsideView popupHeight popupWidth s STop vw in
        let b := isOutsideView popupHeight popupWidth s SBottom vw in
        combineAlignment l r t b
  | _, _, _ => TopCenter
  end.

End Placement.

(* ------------------------------------------------------------------ *)
(** ** Docking: [dockOptions], [_dockingThresholdCrossed],
    [_updateDockEnabledForViewSize], [_shouldDockAtCurrentViewSize],
    [_getCurrentAlignment], [_getCurrentDockPosition] *)

Module Dock.
Import Placement.

(** [dockOptions.breakpoint]: [false] is [None]; a present object has an
    optional [width] and an optional [height] (absent keys are [undefined],
    which every numeric comparison rejects). *)
Record Breakpoint := mkBreakpoint { bp_width : option Q; bp_height : option Q }.

(** [alignment]: ["auto"], one of the known position strings, or a function,
    represented by the position its call returns. *)
Inductive Alignment := AlignAuto | AlignFixed (p : Position) | AlignFn (ret : Position).

(** [dockOptions.position], same three shapes. *)
Inductive DockPos := DockAuto | DockFixed (p : Position) | DockFn (ret : Position).

Record DockOptions := mkDockOptions {
  do_position : DockPos;
  do_breakpoint : option Breakpoint
}.

(** [DOCK_OPTIONS]: position "auto", breakpoint [{ width: 544 }]. *)
Definition DOCK_OPTIONS : DockOptions :=
  mkDockOptions DockAuto (Some (mkBreakpoint (Some 544) None)).

(** The view as read by the docking code: its size, padding, and the
    [breakpoints.xsmall] value when the view declares breakpoints. The view's
    [ui] box is the view minus its padding (the UI-safe size, as the spec
    describes it). *)
Record DView := mkDView { dv_view : View; dv_xsmall : option Q }.

Record FPState := mkFPState {
  fp_view : option DView;
  fp_dockEnabled : bool;
  fp_alignment : Alignment;
  fp_dockOptions : DockOptions;
  fp_storedAlignment : option Position;   (* this._get("currentAlignment") *)
  fp_screenLocation : option ScreenPoint;
  fp_container : option Measure;
  fp_rtl : bool                            (* widgetUtils.isRtl() *)
}.

Definition zeroPadding : Padding := mkPadding 0 0 0 0.

Definition ui_width (dv : DView) : Q :=
  v_width (dv_view dv) - pad_left (v_padding (dv_view dv)) - pad_right (v_padding (dv_view dv)).
Definition ui_height (dv : DView) : Q :=
  v_height (dv_view dv) - pad_top (v_padding (dv_view dv)) - pad_bottom (v_padding (dv_view dv)).

(** [x <= undefined] and [x > undefined] are both false. *)
Definition le_opt (x : Q) (o : option Q) : bool :=
  match o with Some y => Qle_bool x y | None => false end.
Definition gt_opt (x : Q) (o : option Q) : bool :=
  match o with Some y => Qltb y x | None => false end.

(** [_dockingThresholdCrossed]; sizes are [(width, height)]. *)
Definition dockingThresholdCrossed (newSize oldSize : Q * Q) (bp : option Breakpoint) : bool :=
  let '(currWidth, currHeight) := newSize in
  let '(prevWidth, prevHeight) := oldSize in
  let dockingWidth := match bp with Some b => bp_width b | None => None end in
  let dockingHeight := match bp with Some b => bp_height b | None => None end in
  (le_opt currWidth dockingWidth && gt_opt prevWidth dockingWidth) ||
  (gt_opt currWidth dockingWidth && le_opt prevWidth dockingWidth) ||
  (le_opt currHeight dockingHeight && gt_opt prevHeight dockingHeight) ||
  (gt_opt currHeight dockingHeight && le_opt prevHeight dockingHeight).

(** [_shouldDockAtCurrentViewSize] (reads [view.ui] width and height). *)
Definition shouldDockAtCurrentViewSize (bp : Breakpoint) (dv : DView) : bool :=
  le_opt (ui_width dv) (bp_width bp) || le_opt (ui_height dv) (bp_height bp).

Definition set_dockEnabled (st : FPState) (b : bool) : FPState :=
  mkFPState (fp_view st) b (fp_alignment st) (fp_dockOptions st)
    (fp_storedAlignment st) (fp_screenLocation st) (fp_container st) (fp_rtl st).

(** [_setDockEnabledForViewSize] *)
Definition setDockEnabledForViewSize (st : FPState) (dv : DView) : FPState :=
  match do_breakpoint (fp_dockOptions st) with
  | Some bp => set_dockEnabled st (shouldDockAtCurrentViewSize bp dv)
  | None => st
  end.

(** [_updateDockEnabledForViewSize newSize oldSize], run by the watcher on
    [viewModel.view.size] once the view has its new size [dv]. *)
Definition updateDockEnabledForViewSize (st : FPState) (dv : DView)
    (newSize oldSize : Q * Q) : FPState :=
  let p := v_padding (dv_view dv) in
  let widthPadding := pad_left p + pad_right p in
  let heightPadding := pad_top p + pad_bottom p in
  let newUISize := (fst newSize - widthPadding, snd newSize - heightPadding) in
  let oldUISize := (fst oldSize - widthPadding, snd oldSize - heightPadding) in
  if dockingThresholdCrossed newUISize oldUISize (do_breakpoint (fp_dockOptions st))
  then setDockEnabledForViewSize st dv
  else st.

Definition with_size (dv : DView) (w h : Q) : DView :=
  mkDView (mkView w h (v_padding (dv_view dv))) (dv_xsmall dv).

(** A resize of the view to [w x h]: the view gets its new size, then the
    size watcher runs with the new and the old size. Without a view there is
    nothing to resize. *)
Definition resize (st : FPState) (w h : Q) : FPState :=
  match fp_view st with
  | None => st
  | Some dv =>
      let dv' := with_size dv w h in
      let st' := mkFPState (Some dv') (fp_dockEnabled st) (fp_alignment st)
                   (fp_dockOptions st) (fp_storedAlignment st)
                   (fp_screenLocation st) (fp_container st) (fp_rtl st) in
      updateDockEnabledForViewSize st' dv' (w, h)
        (v_width (dv_view dv), v_height (dv_view dv))
  end.

(** [_getCurrentAlignment], the value of the [currentAlignment] getter;
    [None] is [null]. *)
Definition getCurrentAlignment (st : FPState) : option Position :=
  if fp_dockEnabled st then None
  else match fp_alignment st with
       | AlignAuto =>
           Some (determineCurrentAlignment (fp_screenLocation st)
                   (option_map dv_view (fp_view st)) (fp_container st)
                   (fp_storedAlignment st))
       | AlignFn r => Some r
       | AlignFixed p => Some p
       end.

(** [_determineCurrentDockPosition] *)
Definition determineCurrentDockPosition (st : FPState) : Position :=
  let defaultDockPosition := if fp_rtl st then TopLeft else TopRight in
  match fp_view st with
  | None => defaultDockPosition
  | Some dv =>
      match dv_xsmall dv with
      | Some xs => if Qle_bool (ui_width dv) xs then BottomCenter else defaultDockPosition
      | None => defaultDockPosition
      end
  end.

(** [_getDockPosition] *)
Definition getDockPosition (st : FPState) : Position :=
  match do_position (fp_dockOptions st) with
  | DockAuto => determineCurrentDockPosition st
  | DockFn r => r
  | DockFixed p => p
  end.

(** [_getCurrentDockPosition], the value of the [currentDockPosition] getter. *)
Definition getCurrentDockPosition (st : FPState) : option Position :=
  if fp_dockEnabled st then Some (getDockPosition st) else None.

(** The [breakpoint] key of the object given to the [dockOptions] setter. *)
Inductive BPInput := BPUnset | BPBool (b : bool) | BPObj (w h : option Q).

Definition override (o d : option Q) : option Q :=
  match o with Some x => Some x | None => d end.

(** The [dockOptions] setter: the options are mixed over [DOCK_OPTIONS];
    the breakpoint defaults are [DOCK_OPTIONS.breakpoint] overridden by the
    view's [breakpoints.xsmall] for both dimensions, when present. *)
Definition setDockOptions (xsmall : option Q) (position : option DockPos)
    (breakpoint : BPInput) : DockOptions :=
  let pos := match position with Some p => p | None => do_position DOCK_OPTIONS end in
  let viewDockSize := match xsmall with
                      | Some xs => mkBreakpoint (Some xs) (Some xs)
                      | None => mkBreakpoint None None
                      end in
  let breakpointDefaults :=
    mkBreakpoint (override (bp_width viewDockSize) (Some 544))
                 (bp_height viewDockSize) in
  let merge (w h : option Q) :=
    mkBreakpoint (override w (bp_width breakpointDefaults))
                 (override h (bp_height breakpointDefaults)) in
  match breakpoint with
  | BPBool true => mkDockOptions pos (Some breakpointDefaults)
  | BPBool false => mkDockOptions pos None
  | BPUnset => mkDockOptions pos (Some (merge (Some 544) None))
  | BPObj w h => mkDockOptions pos (Some (merge w h))
  end.

End Dock.

(* ------------------------------------------------------------------ *)
(** ** Data sources, eligibility and click tolerance
    ([FloatPopManager._showPopup] inner functions [f], [g], [x];
    [_calculateClickTolerance]) *)

Module Sources.

(** A renderer symbol; an absent offset is [undefined]. *)
Record Symbol := mkSymbol { xoffset : option Q; yoffset : option Q }.

(** A renderer, duck-typed as the code reads it: its [type] string, the
    [symbol] of a simple renderer and the [symbol] of every entry of
    [uniqueValueInfos] / [classBreakInfos]. *)
Record Renderer := mkRenderer {
  r_type : string;
  r_symbol : option Symbol;
  r_uniqueValueInfos : option (list (option Symbol));
  r_classBreakInfos : option (list (option Symbol))
}.

Record Layer := mkLayer {
  l_id : nat;                        (* object identity *)
  l_type : string;
  l_loaded : bool;
  l_popupEnabled : bool;
  l_popupTemplate : bool;
  l_hasQueryFeatures : bool;         (* typeof c.queryFeatures === "function" *)
  l_objectIdField : option string;
  l_renderer : option Renderer
}.

Record Graphic := mkGraphic {
  g_id : nat;                        (* object identity *)
  g_layer : option Layer;
  g_attributes : list (string * Z);
  g_popupTemplate : bool;
  g_visible : bool
}.

Record LayerView := mkLayerView {
  lv_layer : nat;                    (* id of [layerView.layer] *)
  lv_suspended : bool;
  lv_hasDraped : bool;
  lv_getPopupData : bool;            (* exposes getPopupData *)
  lv_loadedGraphics : option (list Graphic);
  lv_graphics3D : option (list Graphic)  (* getGraphics3DGraphics(), by graphic *)
}.

(** A top-level entry of [map.layers]: a [GroupLayer] or a plain layer. *)
Inductive MapLayer := MLGroup (members : list Layer) | MLLayer (l : Layer).

Record MapPoint := mkMapPoint { mx : Q; my : Q }.

(** [view.basemapTerrain] as read for the tolerance extent. *)
Record Terrain := mkTerrain {
  t_overlayPixelSize : option Q;     (* overlayManager.overlayPixelSizeInMapUnits(n) *)
  t_srEqual : bool;                  (* spatialReference.equals(view.spatialReference) *)
  t_meterRatio : Q                   (* metersPerUnit(terrain SR) / metersPerUnit(view SR) *)
}.

Record MView := mkMView {
  mv_3d : bool;                      (* "3d" === view.type *)
  mv_layers : list MapLayer;
  mv_layerViews : list LayerView;    (* view.allLayerViews *)
  mv_graphics : list Graphic;        (* view.graphics *)
  mv_resolution : option Q;          (* view.state.resolution *)
  mv_terrain : option Terrain;
  mv_popup : bool;                   (* view.popup is set *)
  mv_ready : bool
}.

(** An entry of the candidate list [d]: a layer, or the view's own
    [graphics] collection. *)
Inductive Source := SrcLayer (l : Layer) | SrcViewGraphics.

(** [f]: [view.allLayerViews.find(lv => lv.layer === c)]. *)
Definition findLayerView (v : MView) (c : Layer) : option LayerView :=
  find (fun lv => Nat.eqb (lv_layer lv) (l_id c)) (mv_layerViews v).

Definition alwaysQueryableType (ty : string) : bool :=
  String.eqb "graphics" ty || String.eqb "geo-rss" ty ||
  String.eqb "map-notes" ty || String.eqb "kml" ty.

(** [g]: whether a layer may be queried. *)
Definition g (v : MView) (c : option Layer) : bool :=
  match c with
  | None => false
  | Some c =>
      match findLayerView v c with
      | None => false
      | Some a =>
          l_loaded c && negb (lv_suspended a) &&
          (l_popupTemplate c || alwaysQueryableType (l_type c) || lv_getPopupData a)
      end
  end.

(** [x]: whether the layer view is draped. *)
Definition x (v : MView) (c : Layer) : bool :=
  match findLayerView v c with Some a => lv_hasDraped a | None => false end.

(** [!g(a) || e && !x(a) || d.push(a)] *)
Definition keep (v : MView) (c : Layer) : bool :=
  g v (Some c) && negb (mv_3d v && negb (x v c)).

(** The candidate list [d]: group members or top-level layers that are kept,
    then the view's graphics collection when it is not empty. *)
Definition candidates (v : MView) : list Source :=
  flat_map (fun ml =>
              match ml with
              | MLGroup ms => map SrcLayer (filter (keep v) ms)
              | MLLayer l => if keep v l then [SrcLayer l] else []
              end) (mv_layers v) ++
  (if Nat.ltb 0 (List.length (mv_graphics v)) then [SrcViewGraphics] else []).

Definition source_renderer (s : Source) : option Renderer :=
  match s with SrcLayer l => l_renderer l | SrcViewGraphics => None end.

(** [b.xoffset && (a = Math.max(a, Math.abs(b.xoffset)))] *)
Definition bump (a : Q) (o : option Q) : Q :=
  match o with
  | Some off => if Qeq_bool off 0 then a else Qmax a (Qabs off)
  | None => a
  end.

Definition symbolStep (a : Q) (s : option Symbol) : Q :=
  match s with Some s => bump (bump a (xoffset s)) (yoffset s) | None => a end.

(** [b.uniqueValueInfos || b.classBreakInfos] ([undefined] iterates nothing). *)
Definition rendererInfos (r : Renderer) : list (option Symbol) :=
  match r_uniqueValueInfos r with
  | Some l => l
  | None => match r_classBreakInfos r with Some l => l | None => [] end
  end.

Definition rendererStep (a : Q) (s : Source) : Q :=
  match source_renderer s with
  | None => a
  | Some r =>
      if String.eqb "simple" (r_type r) then symbolStep a (r_symbol r)
      else if String.eqb "unique-value" (r_type r) || String.eqb "class-breaks" (r_type r)
      then fold_left symbolStep (rendererInfos r) a
      else a
  end.

(** [_calculateClickTolerance] *)
Definition calculateClickTolerance (b : list Source) : Q :=
  fold_left rendererStep b 6.

(** The spec's "maximum absolute x/y symbol offset discovered across the
    sources' renderers": every offset of a simple renderer's symbol or of a
    unique-value / class-breaks bucket symbol, at its absolute value. *)
Definition symbolOffsets (s : option Symbol) : list Q :=
  match s with
  | Some s => match xoffset s with Some o => [Qabs o] | None => [] end ++
              match yoffset s with Some o => [Qabs o] | None => [] end
  | None => []
  end.

Definition rendererOffsets (s : Source) : list Q :=
  match source_renderer s with
  | None => []
  | Some r =>
      if String.eqb "simple" (r_type r) then symbolOffsets (r_symbol r)
      else if String.eqb "unique-value" (r_type r) || String.eqb "class-breaks" (r_type r)
      then flat_map symbolOffsets (rendererInfos r)
      else []
  end.

Definition maxSymbolOffset (b : list Source) : Q :=
  fold_right Qmax 0 (flat_map rendererOffsets b).

End Sources.

(* ------------------------------------------------------------------ *)
(** ** Feature resolution: [FloatPopManager._showPopup] *)

Module Resolver.
Import Sources.

(** A dojo promise as [_showPopup] sees it: whether it is still pending when
    the open/close decision is taken ([!p.isFulfilled()]; a dojo promise is
    fulfilled once resolved or rejected), and how it eventually settles. A
    callback attached with [then] to a promise that has already settled runs
    synchronously (dojo's Deferred). *)
Inductive Outcome := Ok (fs : list Graphic) | Err.

Record Promise := mkPromise { p_pending : bool; p_outcome : Outcome }.

(** [promiseUtils.resolve(e)], or [new Deferred().resolve(e)]. *)
Definition resolved (fs : list Graphic) : Promise := mkPromise false (Ok fs).

(** [p.then(cb)]; a callback that throws is [Err]. *)
Definition then_ (p : Promise) (cb : list Graphic -> Outcome) : Promise :=
  mkPromise (p_pending p)
    (match p_outcome p with Ok fs => cb fs | Err => Err end).

(** Whether a [t = t || 0 < b.length] callback has already run with a
    non-empty result when the decision is taken. *)
Definition sync_nonempty (p : Promise) : bool :=
  negb (p_pending p) &&
  match p_outcome p with Ok fs => Nat.ltb 0 (List.length fs) | Err => false end.

Record Extent := mkExtent { xmin : Q; ymin : Q; xmax : Q; ymax : Q }.

(** The services of the ArcGIS API the resolver calls. *)
Record Services := mkServices {
  queryFeatures : Layer -> Extent -> Promise;         (* c.queryFeatures(query) *)
  queryVisibleRasters : Layer -> MapPoint -> Promise; (* c.queryVisibleRasters(query, opts) *)
  getPopupData : LayerView -> Extent -> list Promise; (* u([layerView.getPopupData(q)]) *)
  intersects : Extent -> Graphic -> bool;             (* q.intersects(a.geometry) *)
  layerGraphics : Layer -> list Graphic;              (* c.graphics of a graphics layer *)
  whenLayerViewPending : Layer -> bool                (* view.whenLayerView(b) still pending *)
}.

(** [_fetchSceneAttributes(b, a)]: the callback chained on
    [view.whenLayerView(b)] calls [this._getOutFields], which the manager does
    not define, so it throws: the returned promise always rejects. *)
Definition fetchSceneAttributes (env : Services) (b : Layer) (a : list Graphic) : Promise :=
  mkPromise (whenLayerViewPending env b) Err.

Definition attr (gr : Graphic) (fld : option string) : option Z :=
  match fld with
  | Some f => match find (fun kv => String.eqb (fst kv) f) (g_attributes gr) with
              | Some kv => Some (snd kv)
              | None => None
              end
  | None => None
  end.

Definition optZ_eqb (a b : option Z) : bool :=
  match a, b with
  | Some a, Some b => Z.eqb a b
  | None, None => true
  | _, _ => false
  end.

Definition same_layer (gr : Graphic) (c : Layer) : bool :=
  match g_layer gr with Some l => Nat.eqb (l_id l) (l_id c) | None => false end.

(** Step (i) of the [queryFeatures] callback: drop the returned features that
    share the forced feature's object id. *)
Definition dropForced (a : option Graphic) (c : Layer) (b : list Graphic) : list Graphic :=
  match a, l_objectIdField c with
  | Some a, Some fld =>
      if same_layer a c && negb (String.eqb fld "") then
        let d := attr a (Some fld) in
        filter (fun y => negb (optZ_eqb (attr y (Some fld)) d)) b
      else b
  | _, _ => b
  end.

(** The whole [queryFeatures(d).then(function (b) {...})] callback. *)
Definition queryCallback (v : MView) (a : option Graphic) (c : Layer)
    (features : list Graphic) : Outcome :=
  let b := dropForced a c features in
  match a with
  | Some _ => Ok b
  | None =>
      match findLayerView v c with
      | None => Err                  (* f(c).getGraphics3DGraphics on undefined throws *)
      | Some lv =>
          match lv_graphics3D lv with
          | Some h =>
              let e := map (fun gr => attr gr (l_objectIdField c)) h in
              Ok (filter (fun y => existsb (optZ_eqb (attr y (l_objectIdField c))) e) b)
          | None => Ok b
          end
      end
  end.

(** The local filter over a graphics collection. *)
Definition localFilter (env : Services) (q : Extent) (h : bool) (gs : list Graphic) :=
  filter (fun y => (negb h || g_popupTemplate y) && g_visible y && intersects env q y) gs.

(** [n(c)]: the promises dispatched for one candidate source once [u] has
    flattened them ([[]] when [n] returns [undefined]; the promises of a
    [getPopupData] array or collection otherwise several or none) and whether
    it sets [t] synchronously. The manager's [_featureLayersCache] is never
    filled, so [!cache[c.id]] holds. *)
Definition dispatch (env : Services) (v : MView) (a : option Graphic) (q : Extent)
    (mp : MapPoint) (src : Source) : list Promise * bool :=
  match src with
  | SrcViewGraphics =>
      let e := localFilter env q true (mv_graphics v) in
      if Nat.ltb 0 (List.length e) then ([resolved e], true) else ([], false)
  | SrcLayer c =>
      if String.eqb "imagery" (l_type c) then
        let pr := then_ (queryVisibleRasters env c mp) Ok in
        ([pr], sync_nonempty pr)
      else if String.eqb "csv" (l_type c) || negb (l_hasQueryFeatures c) then
        if String.eqb "map-image" (l_type c) || String.eqb "wms" (l_type c) then
          match findLayerView v c with
          | Some lv => (getPopupData env lv q, false)
          | None => ([], false)      (* unreachable: a candidate has a layer view *)
          end
        else
          let '(d, h) :=
            if String.eqb "graphics" (l_type c) then (Some (layerGraphics env c), true)
            else (option_map (fun lv => match lv_loadedGraphics lv with
                                        | Some gs => gs | None => [] end)
                             (findLayerView v c), false) in
          let e := match d with Some gs => localFilter env q h gs | None => [] end in
          if Nat.ltb 0 (List.length e) then
            ([if String.eqb "scene" (l_type c) then fetchSceneAttributes env c e
              else resolved e], true)
          else ([], false)
      else
        let pr := then_ (queryFeatures env c q) (queryCallback v a c) in
        ([pr], sync_nonempty pr)
  end.

(** [p = u(d.map(n).filter(a => !!a))], with the value of [t] once the map
    has run. *)
Fixpoint dispatchAll (env : Services) (v : MView) (a : option Graphic) (q : Extent)
    (mp : MapPoint) (t : bool) (d : list Source) : list Promise * bool :=
  match d with
  | [] => ([], t)
  | c :: d' =>
      let '(o, tc) := dispatch env v a q mp c in
      let '(ps, t') := dispatchAll env v a q mp (t || tc) d' in
      ((o ++ ps)%list, t')
  end.

(** The tolerance extent around the map point. *)
Definition toleranceExtent (v : MView) (tol : Q) (n : MapPoint) : Extent :=
  let w := match mv_resolution v with Some r => r | None => 1 end in
  let w := match mv_terrain v with
           | Some k => match t_overlayPixelSize k with Some s => s | None => w end
           | None => w end in
  let vt := tol * w in
  let vt := match mv_terrain v with
            | Some k => if t_srEqual k then vt else vt * t_meterRatio k
            | None => vt end in
  mkExtent (Qmin (mx n - vt) (mx n + vt)) (Qmin (my n - vt) (my n + vt))
           (Qmax (mx n - vt) (mx n + vt)) (Qmax (my n - vt) (my n + vt)).

(** A click as delivered by the view. *)
Record Click := mkClick {
  c_button : Z;
  c_screenPoint : option (Q * Q);
  c_mapPoint : option MapPoint
}.

(** What [_showPopup] does to the manager: open its new popup with the
    promises at the map point and add it to [floatpops]; do nothing; or call
    [_closePopup]. *)
Inductive Action := ActOpen (ps : list Promise) (loc : option MapPoint) | ActNone | ActClose.

Definition mem_graphic (a : Graphic) (gs : list Graphic) : bool :=
  existsb (fun y => Nat.eqb (g_id y) (g_id a)) gs.

(** [(a && h.graphics.includes(a) ? a.popupTemplate : !a || g(a.layer)) || (a = null)] *)
Definition forcedKept (v : MView) (a : option Graphic) : option Graphic :=
  match a with
  | None => None
  | Some a =>
      if (if mem_graphic a (mv_graphics v) then g_popupTemplate a else g v (g_layer a))
      then Some a else None
  end.

(** [a && (a.layer && "scene" === a.layer.type ? p.unshift(...) :
    a.popupTemplate && p.unshift(resolved [a]))] *)
Definition unshiftForced (env : Services) (a : option Graphic) (p : list Promise) : list Promise :=
  match a with
  | None => p
  | Some a =>
      match g_layer a with
      | Some l => if String.eqb "scene" (l_type l) then fetchSceneAttributes env l [a] :: p
                  else if g_popupTemplate a then resolved [a] :: p else p
      | None => if g_popupTemplate a then resolved [a] :: p else p
      end
  end.

(** The promise list [p] and [t] at the decision point, once a map point
    [n] is known. *)
Definition resolvePromises (env : Services) (v : MView) (b : Click) (a : option Graphic)
    (d : list Source) (n : MapPoint) : list Promise * bool :=
  let t := match a with Some _ => true | None => false end in
  let q := toleranceExtent v (calculateClickTolerance d) n in
  let '(p, t) := if mv_3d v && match a with Some _ => true | None => false end
                 then ([], t) else dispatchAll env v a q n t d in
  (unshiftForced env a p, t).

(** [_showPopup(b, a)] *)
Definition showPopup (env : Services) (v : MView) (b : Click) (a0 : option Graphic) : Action :=
  let d := candidates v in
  let a := forcedKept v a0 in
  if Nat.ltb 0 (List.length d) || match a with Some _ => true | None => false end then
    match c_mapPoint b with
    | Some n =>
        let '(p, t) := resolvePromises env v b a d n in
        if existsb p_pending p || t then
          (if Nat.ltb 0 (List.length p) then ActOpen p (c_mapPoint b) else ActNone)
        else ActClose
    | None => ActClose
    end
  else ActClose.

(** The features a list of promises eventually delivers, in order. *)
Definition settledFeatures (ps : list Promise) : list Graphic :=
  flat_map (fun p => match p_outcome p with Ok fs => fs | Err => [] end) ps.

End Resolver.

(* ------------------------------------------------------------------ *)
(** ** The manager: [_clickHandler], the hit-test continuation, [_closePopup] *)

Module Manager.
Import Sources Resolver.

(** A FloatPop created and opened by [_showPopup]. *)
Record Pop := mkPop {
  pop_promises : list Promise;
  pop_location : option MapPoint;
  pop_visible : bool
}.

(** The manager's state: [autoclose], the [floatpops] collection, and the
    clicks whose [view.hitTest] has not returned yet, with the flag [y]
    computed by the click handler. *)
Record MState := mkMState {
  ms_autoclose : bool;
  ms_pops : list Pop;
  ms_pending : list (Click * bool)
}.

(** [_closePopup] *)
Definition closePopup (st : MState) : MState :=
  if ms_autoclose st && Nat.ltb 0 (List.length (ms_pops st))
  then mkMState (ms_autoclose st) [] (ms_pending st)
  else st.

Definition applyAction (st : MState) (act : Action) : MState :=
  match act with
  | ActOpen ps loc => mkMState (ms_autoclose st) (ms_pops st ++ [mkPop ps loc true]) (ms_pending st)
  | ActNone => st
  | ActClose => closePopup st
  end.

(** [view.map.allLayers], group layers left out (the handler returns false
    for them). *)
Definition allLayers (v : MView) : list Layer :=
  flat_map (fun ml => match ml with MLGroup ms => ms | MLLayer l => [l] end) (mv_layers v).

(** The predicate of [allLayers.some(...)] in [_clickHandler]. *)
Definition clickEligible (v : MView) (b : Layer) : bool :=
  match findLayerView v b with
  | None => false
  | Some d =>
      l_loaded b && negb (lv_suspended d) &&
      (l_popupEnabled b && l_popupTemplate b || String.eqb "graphics" (l_type b) ||
       lv_getPopupData d) &&
      (negb (mv_3d v) || lv_hasDraped d)
  end.

(** [_clickHandler(b)]: a click with a screen point waits for its hit test. *)
Definition clickHandler (env : Services) (v : MView) (st : MState) (b : Click) : MState :=
  if Z.eqb (c_button b) 0 && mv_popup v && mv_ready v then
    let y := existsb (clickEligible v) (allLayers v) in
    match c_screenPoint b with
    | Some _ => mkMState (ms_autoclose st) (ms_pops st) (ms_pending st ++ [(b, y)])
    | None => applyAction st (showPopup env v b None)
    end
  else st.

Fixpoint remove_nth {A} (k : nat) (l : list A) : list A :=
  match k, l with
  | _, [] => []
  | O, _ :: l' => l'
  | S k', h :: l' => h :: remove_nth k' l'
  end.

(** The [hitTest(...).then(...)] continuation of the [k]-th pending click,
    run with the hit-test results. *)
Definition hitTestReturns (env : Services) (v : MView) (st : MState) (k : nat)
    (results : list Graphic) : MState :=
  match nth_error (ms_pending st) k with
  | None => st
  | Some (b, y) =>
      let st' := mkMState (ms_autoclose st) (ms_pops st) (remove_nth k (ms_pending st)) in
      if y || Nat.ltb 0 (List.length results)
      then applyAction st' (showPopup env v b (hd_error results))
      else closePopup st'
  end.

End Manager.

(* ------------------------------------------------------------------ *)
(** ** Container style and dock toggling: [_calculateFullWidth],
    [_calculateAlignmentPosition], [_calculatePositionStyle],
    [_toggleDockEnabled], [_wouldDockTo] *)

Module Styling.
Import Placement Dock.

(** A CSS length as [_calculatePositionStyle] writes it: [`${n}px`],
    ["auto"] or the empty string. *)
Inductive CssValue := Px (n : Q) | Auto | Empty.

Record PositionStyle := mkPositionStyle {
  ps_top : CssValue;
  ps_left : CssValue;
  ps_bottom : CssValue;
  ps_right : CssValue
}.

(** The object literal returned by [_calculateAlignmentPosition]; a key it
    does not set is [undefined]. *)
Record AlignmentPosition := mkAlignmentPosition {
  ap_top : option Q;
  ap_left : option Q;
  ap_bottom : option Q;
  ap_right : option Q
}.

(** [_calculateFullWidth]; [currentAlignment] is the getter's value. *)
Definition calculateFullWidth (currentAlignment : option Position) (width : Q) : Q :=
  match currentAlignment with
  | Some TopLeft | Some BottomLeft | Some TopRight | Some BottomRight =>
      width + pointerOffsetInPx
  | _ => width
  end.

(** [_calculateAlignmentPosition]; [None] is the implicit [undefined] return
    (a [null] alignment, i.e. a docked popup). *)
Definition calculateAlignmentPosition (currentAlignment : option Position)
    (x y : Q) (view : View) (width : Q) : option AlignmentPosition :=
  let pointerOffset := pointerOffsetInPx in
  let halfWidth := width / 2 in
  let viewHeightOffset := v_height view - y in
  let viewWidthOffset := v_width view - x in
  match currentAlignment with
  | Some BottomCenter =>
      Some (mkAlignmentPosition (Some (y + pointerOffset)) (Some (x - halfWidth)) None None)
  | Some TopLeft =>
      Some (mkAlignmentPosition None None (Some (viewHeightOffset + pointerOffset))
              (Some (viewWidthOffset + pointerOffset)))
  | Some BottomLeft =>
      Some (mkAlignmentPosition (Some (y + pointerOffset)) None None
              (Some (viewWidthOffset + pointerOffset)))
  | Some TopRight =>
      Some (mkAlignmentPosition None (Some (x + pointerOffset))
              (Some (viewHeightOffset + pointerOffset)) None)
  | Some BottomRight =>
      Some (mkAlignmentPosition (Some (y + pointerOffset)) (Some (x + pointerOffset)) None None)
  | Some TopCenter =>
      Some (mkAlignmentPosition None (Some (x - halfWidth))
              (Some (viewHeightOffset + pointerOffset)) None)
  | None => None
  end.

(** [padding.side ? `${padding.side}px` : ""] *)
Definition paddingValue (p : Q) : CssValue :=
  if Qeq_bool p 0 then Empty else Px p.

(** [position.side !== undefined ? `${position.side}px` : "auto"] *)
Definition autoValue (o : option Q) : CssValue :=
  match o with Some n => Px n | None => Auto end.

(** [_calculatePositionStyle(screenLocation, domGeometryBox)]; the box is
    given by its width [w], the only field read. *)
Definition calculatePositionStyle (st : FPState) (screenLocation : option ScreenPoint)
    (domGeometryBox : option Q) : option PositionStyle :=
  match fp_view st with
  | None => None
  | Some dv =>
      let view := dv_view dv in
      let padding := v_padding view in
      if fp_dockEnabled st then
        Some (mkPositionStyle (paddingValue (pad_top padding)) (paddingValue (pad_left padding))
                (paddingValue (pad_bottom padding)) (paddingValue (pad_right padding)))
      else
        match screenLocation, domGeometryBox with
        | Some s, Some w =>
            let currentAlignment := getCurrentAlignment st in
            let width := calculateFullWidth currentAlignment w in
            match calculateAlignmentPosition currentAlignment (sp_x s) (sp_y s) view width with
            | None => None
            | Some position =>
                Some (mkPositionStyle (autoValue (ap_top position)) (autoValue (ap_left position))
                        (autoValue (ap_bottom position)) (autoValue (ap_right position)))
            end
        | _, _ => None
        end
  end.


(** [_wouldDockTo]: where the dock button would dock the popup. *)
Definition wouldDockTo (st : FPState) : option Position :=
  if negb (fp_dockEnabled st) then Some (getDockPosition st) else None.

(** A sequence of view resizes, each to [(width, height)]. *)
Definition resizes (st : FPState) (sizes : list (Q * Q)) : FPState :=
  fold_left (fun st wh => resize st (fst wh) (snd wh)) sizes st.

End Styling.

(* ------------------------------------------------------------------ *)
(** ** Manager lifecycle: the [enabled] and [view] setters, [destroy],
    [closeAll] *)

Module Lifecycle.
Import Sources Resolver Manager.

(** The manager's [enabled] flag, its [view], and its click handle
    ([on.pausable(view, "click", ...)]): [None] when there is none, otherwise
    whether the handle is paused. *)
Record Handles := mkHandles {
  h_enabled : bool;
  h_view : option MView;
  h_clickHandle : option bool
}.

(** [enabled] is declared with [value: false]; there is no view and no
    handle yet. *)
Definition initialHandles : Handles := mkHandles false None None.

(** The [enabled] setter: resume or pause an existing handle. *)
Definition setEnabled (m : Handles) (value : bool) : Handles :=
  mkHandles value (h_view m) (option_map (fun _ => negb value) (h_clickHandle m)).

(** The [view] setter: remove the old handle; for a view, register a new
    (running) handle and pause it unless the manager is enabled. *)
Definition setView (m : Handles) (value : option MView) : Handles :=
  mkHandles (h_enabled m) value
    (match value with Some _ => Some (negb (h_enabled m)) | None => None end).

(** [destroy]: [this.view = null] (the feature-layer cache it also resets is
    never read). *)
Definition destroy (m : Handles) : Handles := setView m None.

Inductive HandleOp := OpEnabled (b : bool) | OpView (v : option MView) | OpDestroy.

Definition applyHandleOp (m : Handles) (op : HandleOp) : Handles :=
  match op with
  | OpEnabled b => setEnabled m b
  | OpView v => setView m v
  | OpDestroy => destroy m
  end.

Definition runHandleOps (m : Handles) (ops : list HandleOp) : Handles :=
  fold_left applyHandleOp ops m.

(** Whether [_clickHandler] receives the view's clicks. *)
Definition receivesClicks (m : Handles) : bool :=
  match h_clickHandle m with Some false => true | _ => false end.

(** [pop.clear()] (the view model's [clear]: no promises, no location),
    then [pop.close()] ([visible = false]). *)
Definition clearAndClose (p : Pop) : Pop := mkPop [] None false.

(** [closeAll] *)
Definition closeAll (st : MState) : MState :=
  if ms_autoclose st && Nat.ltb 0 (List.length (ms_pops st))
  then mkMState (ms_autoclose st) (map clearAndClose (ms_pops st)) (ms_pending st)
  else st.

End Lifecycle.

(* ------------------------------------------------------------------ *)
(** ** Concrete configurations used to exercise the definitions *)

Module Fixtures.
Import Placement Dock Sources Resolver Manager.

Definition simpleLayer (id : nat) (xo yo : option Q) : Layer :=
  mkLayer id "feature" true true true true (Some "OBJECTID")
    (Some (mkRenderer "simple" (Some (mkSymbol xo yo)) None None)).

Definition uniqueLayer (id : nat) (offs : list (option Symbol)) : Layer :=
  mkLayer id "feature" true true true true (Some "OBJECTID")
    (Some (mkRenderer "unique-value" None (Some offs) None)).

(** A map-image layer without a popup template, whose layer view exposes
    [getPopupData]. *)
Definition mapImage : Layer := mkLayer 3 "map-image" true false false false None None.
Definition lvMapImage : LayerView := mkLayerView 3 false false true None None.
Definition viewMapImage : MView :=
  mkMView false [MLLayer mapImage] [lvMapImage] [] (Some 1) None true true.

(** A 100 x 100 view, a 300 x 300 popup, an anchor near the left edge. *)
Definition smallView : View := mkView 100 100 (mkPadding 0 0 0 0).
Definition bigBox : Measure := mkMeasure 300 300 None.
Definition nearLeft : ScreenPoint := mkScreenPoint 10 50.
Definition narrowBox : Measure := mkMeasure 40 20 None.
Definition nearRight : ScreenPoint := mkScreenPoint 95 50.

(** A 600 x 500 view whose breakpoints give [xsmall = 544], with the default
    dock options (breakpoint [{ width: 544, height: 544 }] after the setter). *)
Definition dview600 : DView := mkDView (mkView 600 500 (mkPadding 0 0 0 0)) (Some 544).
Definition floating600 : FPState :=
  mkFPState (Some dview600) false AlignAuto (setDockOptions (Some 544) None BPUnset)
    None None None false.

(** The same view without declared breakpoints: breakpoint [{ width: 544 }]. *)
Definition dview600nb : DView := mkDView (mkView 600 500 (mkPadding 0 0 0 0)) None.
Definition floating600nb : FPState :=
  mkFPState (Some dview600nb) false AlignAuto (setDockOptions None None BPUnset)
    None None None false.

(** A 2D view with one loaded, popup-enabled feature layer. *)
Definition featureLayer : Layer :=
  mkLayer 1 "feature" true true true true (Some "OBJECTID") None.
Definition lvFeature : LayerView := mkLayerView 1 false false false None None.
Definition view2D : MView :=
  mkMView false [MLLayer featureLayer] [lvFeature] [] (Some 1) None true true.

(** Services whose [queryFeatures] answers with [qf]. *)
Definition envQ (qf : Promise) : Services :=
  mkServices (fun _ _ => qf) (fun _ _ => resolved []) (fun _ _ => [resolved []])
    (fun _ _ => true) (fun _ => []) (fun _ => true).

Definition mp0 : MapPoint := mkMapPoint 0 0.
Definition clickMap : Click := mkClick 0 (Some (5, 5)) (Some mp0).
Definition clickNoMap : Click := mkClick 0 (Some (5, 5)) None.
Definition clickRight : Click := mkClick 2 (Some (5, 5)) (Some mp0).

(** Features of [featureLayer]: the hit-test graphic with a popup template of
    its own, the same one without (its template is the layer's), the copy of
    that feature the layer query returns, and another feature. *)
Definition forcedTpl : Graphic := mkGraphic 10 (Some featureLayer) [("OBJECTID", 7%Z)] true true.
Definition forcedNoTpl : Graphic := mkGraphic 10 (Some featureLayer) [("OBJECTID", 7%Z)] false true.
Definition sameFeature : Graphic := mkGraphic 11 (Some featureLayer) [("OBJECTID", 7%Z)] false true.
Definition otherFeature : Graphic := mkGraphic 12 (Some featureLayer) [("OBJECTID", 8%Z)] false true.

Definition pendingQuery : Promise := mkPromise true (Ok [sameFeature; otherFeature]).

Definition count_oid (v : Z) (fs : list Graphic) : nat :=
  List.length (filter (fun y => optZ_eqb (attr y (Some "OBJECTID")) (Some v)) fs).

Definition autoclosing : MState := mkMState true [] [].

End Fixtures.

(** Configurations for the container style, the lifecycle and the 3D
    resolution path. *)
Module MoreFixtures.
Import Placement Dock Sources Resolver Manager Fixtures.

(** A floating popup in a padded 600 x 500 view, anchored at (300, 250),
    and the same popup docked. *)
Definition paddedView : DView := mkDView (mkView 600 500 (mkPadding 10 0 20 0)) (Some 544).
Definition floatingPadded : FPState :=
  mkFPState (Some paddedView) false AlignAuto (setDockOptions (Some 544) None BPUnset)
    None (Some (mkScreenPoint 300 250)) (Some narrowBox) false.
Definition dockedPadded : FPState := set_dockEnabled floatingPadded true.

(** A popup whose dock options turn docking by size off. *)
Definition noBreakpoint : FPState :=
  mkFPState (Some dview600) false AlignAuto (setDockOptions (Some 544) None (BPBool false))
    None None None false.

(** A 3D view in which [featureLayer] is draped. *)
Definition lvDraped : LayerView := mkLayerView 1 false true false None None.
Definition view3D : MView :=
  mkMView true [MLLayer featureLayer] [lvDraped] [] (Some 1) None true true.

(** A loaded feature layer without a popup template, whose layer view does
    not expose [getPopupData], next to [mapImage]. *)
Definition plainLayer : Layer := mkLayer 5 "feature" true true false true (Some "OBJECTID") None.
Definition lvPlain : LayerView := mkLayerView 5 false false false None None.
Definition viewPlain : MView :=
  mkMView false [MLLayer plainLayer; MLLayer mapImage] [lvPlain; lvMapImage] [] (Some 1) None
    true true.


(** An autoclosing manager with two open popups. *)
Definition twoOpen : MState :=
  mkMState true [mkPop [resolved [otherFeature]] (Some mp0) true;
                 mkPop [] None true] [].

End MoreFixtures.

(* ================================================================== *)
(** * Properties *)

(* ------------------------------------------------------------------ *)
(** ** Click tolerance *)

Module ToleranceFacts.
Import Sources.

Local Open Scope Q_scope.

Definition F (l : list Q) : Q := fold_right Qmax 0 l.

Lemma F_nonneg (l : list Q) : 0 <= F l.
Proof.
  induction l as [|y l IH]; simpl.
  - apply Qle_refl.
  - eapply Qle_trans; [exact IH | apply Q.le_max_r].
Qed.

Lemma fold_right_Qmax_base (l : list Q) (c : Q) :
  0 <= c -> fold_right Qmax c l == Qmax (F l) c.
Proof.
  intros Hc; induction l as [|y l IH]; simpl.
  - symmetry; apply Q.max_r; exact Hc.
  - rewrite IH. unfold F. apply Q.max_assoc.
Qed.

Lemma F_app (l1 l2 : list Q) : F (l1 ++ l2) == Qmax (F l1) (F l2).
Proof.
  unfold F at 1. rewrite fold_right_app.
  apply fold_right_Qmax_base, F_nonneg.
Qed.

Lemma Qmax_0_r (a : Q) : 0 <= a -> Qmax a 0 == a.
Proof. intros H; apply Q.max_l; exact H. Qed.

Section FoldMax.
Variable X : Type.
Variable step : Q -> X -> Q.
Variable offs : X -> list Q.
Hypothesis step_eq : forall a y, 0 <= a -> step a y == Qmax a (F (offs y)).

Lemma fold_left_max (l : list X) (a : Q) :
  0 <= a -> fold_left step l a == Qmax a (F (flat_map offs l)).
Proof.
  revert a; induction l as [|y l IH]; intros a Ha; simpl.
  - symmetry; apply Qmax_0_r; exact Ha.
  - assert (Hs : 0 <= step a y).
    { rewrite step_eq by exact Ha. eapply Qle_trans; [exact Ha | apply Q.le_max_l]. }
    rewrite (IH _ Hs), (step_eq a y Ha), F_app.
    symmetry; apply Q.max_assoc.
Qed.

End FoldMax.

Definition opt_abs (o : option Q) : list Q :=
  match o with Some o => [Qabs o] | None => [] end.

Lemma bump_eq (a : Q) (o : option Q) :
  0 <= a -> bump a o == Qmax a (F (opt_abs o)).
Proof.
  intros Ha; destruct o as [o|]; simpl.
  - assert (Hm : Qmax (Qabs o) 0 == Qabs o) by (apply Qmax_0_r, Qabs_nonneg).
    destruct (Qeq_bool o 0) eqn:E.
    + apply Qeq_bool_iff in E.
      assert (Hz : Qabs o == 0) by (rewrite E; reflexivity).
      rewrite Hm, Hz. symmetry; apply Qmax_0_r; exact Ha.
    + rewrite Hm; reflexivity.
  - symmetry; apply Qmax_0_r; exact Ha.
Qed.

Lemma bump_ge (a : Q) (o : option Q) : 0 <= a -> a <= bump a o.
Proof.
  intros Ha; rewrite (bump_eq a o Ha); apply Q.le_max_l.
Qed.

Lemma symbolStep_eq (a : Q) (s : option Symbol) :
  0 <= a -> symbolStep a s == Qmax a (F (symbolOffsets s)).
Proof.
  intros Ha; destruct s as [[xo yo]|]; simpl.
  - assert (Hb : 0 <= bump a xo) by (eapply Qle_trans; [exact Ha | apply bump_ge; exact Ha]).
    rewrite (bump_eq _ yo Hb), (bump_eq _ xo Ha).
    change (match xo with Some o => [Qabs o] | None => [] end ++
            match yo with Some o => [Qabs o] | None => [] end)%list
      with (opt_abs xo ++ opt_abs yo)%list.
    rewrite F_app. symmetry; apply Q.max_assoc.
  - symmetry; apply Qmax_0_r; exact Ha.
Qed.

Lemma rendererStep_eq (a : Q) (s : Source) :
  0 <= a -> rendererStep a s == Qmax a (F (rendererOffsets s)).
Proof.
  intros Ha; unfold rendererStep, rendererOffsets.
  destruct (source_renderer s) as [r|].
  - destruct (String.eqb "simple" (r_type r)).
    + apply symbolStep_eq; exact Ha.
    + destruct (String.eqb "unique-value" (r_type r) || String.eqb "class-breaks" (r_type r)).
      * apply fold_left_max; [exact symbolStep_eq | exact Ha].
      * symmetry; apply Qmax_0_r; exact Ha.
  - symmetry; apply Qmax_0_r; exact Ha.
Qed.

(** The tolerance is the baseline 6 raised to the largest offset found. *)
Lemma calculateClickTolerance_eq (b : list Source) :
  calculateClickTolerance b == Qmax 6 (maxSymbolOffset b).
Proof.
  unfold calculateClickTolerance, maxSymbolOffset.
  apply fold_left_max; [exact rendererStep_eq | discriminate].
Qed.

End ToleranceFacts.

(* ------------------------------------------------------------------ *)
(** ** Claims *)

Module Claims.
Import Placement Dock Sources Resolver Manager ToleranceFacts Fixtures MoreFixtures.

Local Open Scope Q_scope.

(** C8: the click tolerance is at least 6 pixels, and it is monotonic in the
    maximum absolute symbol offset found across the sources' simple,
    unique-value and class-breaks renderers. *)
Theorem C8_tolerance_bounded_monotone (b1 b2 : list Source) :
  6 <= calculateClickTolerance b1 /\
  (maxSymbolOffset b1 <= maxSymbolOffset b2 ->
   calculateClickTolerance b1 <= calculateClickTolerance b2).
Proof.
  rewrite !calculateClickTolerance_eq. split.
  - apply Q.le_max_l.
  - intros H. apply Q.max_le_compat_l; exact H.
Qed.

Lemma C8_witness :
  maxSymbolOffset [SrcLayer (simpleLayer 1 (Some 8) (Some (-3)))] <=
  maxSymbolOffset [SrcLayer (uniqueLayer 2 [Some (mkSymbol (Some 0) (Some (-12))); None])] /\
  (6 <= calculateClickTolerance [SrcLayer (simpleLayer 1 (Some 8) (Some (-3)))]) /\
  (calculateClickTolerance [SrcLayer (simpleLayer 1 (Some 8) (Some (-3)))] <=
   calculateClickTolerance [SrcLayer (uniqueLayer 2 [Some (mkSymbol (Some 0) (Some (-12))); None])]).
Proof.
  assert (H : maxSymbolOffset [SrcLayer (simpleLayer 1 (Some 8) (Some (-3)))] <=
              maxSymbolOffset [SrcLayer (uniqueLayer 2 [Some (mkSymbol (Some 0) (Some (-12))); None])])
    by (vm_compute; discriminate).
  destruct (C8_tolerance_bounded_monotone
              [SrcLayer (simpleLayer 1 (Some 8) (Some (-3)))]
              [SrcLayer (uniqueLayer 2 [Some (mkSymbol (Some 0) (Some (-12))); None])])
    as [H6 Hm].
  split; [exact H|]. split; [exact H6 | exact (Hm H)].
Defined.


(** C5 (as stated): a source with no popup template and not of an
    always-queryable kind is never eligible. Refuted: a map-image layer with
    no popup template whose layer view exposes [getPopupData] is eligible and
    is a query candidate. *)
Lemma C5_counterexample :
  l_popupTemplate mapImage = false /\
  alwaysQueryableType (l_type mapImage) = false /\
  g viewMapImage (Some mapImage) = true /\
  In (SrcLayer mapImage) (candidates viewMapImage).
Proof. vm_compute. split; [reflexivity|]. split; [reflexivity|]. split; [reflexivity|]. left; reflexivity. Qed.

Lemma candidates_keep (v : MView) (c : Layer) :
  In (SrcLayer c) (candidates v) -> keep v c = true.
Proof.
  unfold candidates. intros H. apply in_app_or in H. destruct H as [H|H].
  - apply in_flat_map in H. destruct H as [ml [_ Hml]].
    destruct ml as [ms|l].
    + apply in_map_iff in Hml. destruct Hml as [c' [Heq Hin]].
      injection Heq as ->. apply filter_In in Hin. exact (proj2 Hin).
    + destruct (keep v l) eqn:E; [|contradiction].
      destruct Hml as [Heq|[]]. injection Heq as ->. exact E.
  - destruct (Nat.ltb 0 (List.length (mv_graphics v))); simpl in H;
      [destruct H as [H|[]]; discriminate | contradiction].
Qed.

(** C5 (amended): for a source with no popup template and not of an
    always-queryable kind (graphics, geo-rss, map-notes, kml), [g] holds
    exactly when the layer is loaded and its layer view exists, is not
    suspended and exposes [getPopupData] (as a map-image or wms layer view
    does). So when its layer view does not expose [getPopupData], [g] is false
    and the source is never a query candidate. *)
Theorem C5_eligibility_without_template (v : MView) (c : Layer) :
  l_popupTemplate c = false ->
  alwaysQueryableType (l_type c) = false ->
  (g v (Some c) = true <->
   exists lv, findLayerView v c = Some lv /\ l_loaded c = true /\
              lv_suspended lv = false /\ lv_getPopupData lv = true) /\
  ((forall lv, findLayerView v c = Some lv -> lv_getPopupData lv = false) ->
   g v (Some c) = false /\ ~ In (SrcLayer c) (candidates v)).
Proof.
  intros Ht Hk. split.
  - unfold g. rewrite Ht, Hk. simpl orb.
    destruct (findLayerView v c) as [lv|] eqn:E.
    + split.
      * intros H. apply andb_prop in H. destruct H as [H Hp].
        apply andb_prop in H. destruct H as [Hl Hs].
        exists lv. split; [reflexivity|]. split; [exact Hl|].
        split; [destruct (lv_suspended lv); [discriminate|reflexivity] | exact Hp].
      * intros [lv' [E' [Hl [Hs Hp]]]]. injection E' as <-.
        rewrite Hl, Hs, Hp. reflexivity.
    + split; [discriminate|]. intros [lv' [E' _]]. discriminate E'.
  - intros Hp.
    assert (Hg : g v (Some c) = false).
    { unfold g. destruct (findLayerView v c) as [lv|] eqn:E; [|reflexivity].
      rewrite Ht, Hk, (Hp lv eq_refl). simpl. apply andb_false_r. }
    split; [exact Hg|].
    intros Hin. apply candidates_keep in Hin. unfold keep in Hin.
    rewrite Hg in Hin. discriminate.
Qed.

Lemma C5_witness :
  (g viewPlain (Some plainLayer) = false /\ ~ In (SrcLayer plainLayer) (candidates viewPlain)) /\
  g viewPlain (Some mapImage) = true.
Proof.
  split.
  - destruct (C5_eligibility_without_template viewPlain plainLayer eq_refl eq_refl) as [_ H].
    apply H. intros lv E. vm_compute in E. injection E as <-. reflexivity.
  - destruct (C5_eligibility_without_template viewPlain mapImage eq_refl eq_refl) as [[_ H] _].
    apply H. exists lvMapImage. split; [vm_compute; reflexivity|]. repeat split.
Defined.

(** C6 (as stated): simultaneous top and bottom overflow yields "top-center".
    Refuted: when the left side overflows too, the left rule wins and the
    alignment is "bottom-right". *)
Lemma C6_counterexample :
  isScreenLocationWithinView nearLeft smallView = true /\
  isOutsideView (popupHeightOf bigBox) (popupWidthOf bigBox) nearLeft SLeft smallView = true /\
  isOutsideView (popupHeightOf bigBox) (popupWidthOf bigBox) nearLeft STop smallView = true /\
  isOutsideView (popupHeightOf bigBox) (popupWidthOf bigBox) nearLeft SBottom smallView = true /\
  determineCurrentAlignment (Some nearLeft) (Some smallView) (Some bigBox) None = BottomRight.
Proof. vm_compute. repeat split. Qed.

(** C6 (amended): for an anchor inside the view with a measured popup, the
    rules apply in the code's precedence: left overflow gives "bottom-right"
    when the top overflows and "top-right" otherwise; right overflow without
    left overflow gives "top-left" or "bottom-left" (never a "*-right");
    top and bottom overflow without left or right overflow give
    "top-center"; no overflow gives "top-center". *)
Theorem C6_alignment_rules (s : ScreenPoint) (vw : View) (m : Measure) (prev : option Position) :
  isScreenLocationWithinView s vw = true ->
  let ov side := isOutsideView (popupHeightOf m) (popupWidthOf m) s side vw in
  let res := determineCurrentAlignment (Some s) (Some vw) (Some m) prev in
  (ov SLeft = true -> res = if ov STop then BottomRight else TopRight) /\
  (ov SLeft = false -> ov SRight = true -> res = TopLeft \/ res = BottomLeft) /\
  (ov SLeft = false -> ov SRight = false -> ov STop = true -> ov SBottom = true ->
     res = TopCenter) /\
  (ov SLeft = false -> ov SRight = false -> ov STop = false -> ov SBottom = false ->
     res = TopCenter).
Proof.
  intros Hin ov res. subst ov res. unfold determineCurrentAlignment. rewrite Hin. cbn zeta.
  unfold combineAlignment.
  destruct (isOutsideView (popupHeightOf m) (popupWidthOf m) s SLeft vw);
  destruct (isOutsideView (popupHeightOf m) (popupWidthOf m) s SRight vw);
  destruct (isOutsideView (popupHeightOf m) (popupWidthOf m) s STop vw);
  destruct (isOutsideView (popupHeightOf m) (popupWidthOf m) s SBottom vw);
  repeat split; intros; try discriminate; auto.
Qed.

Lemma C6_witness :
  isScreenLocationWithinView nearRight smallView = true /\
  (let ov side := isOutsideView (popupHeightOf narrowBox) (popupWidthOf narrowBox) nearRight side smallView in
   let res := determineCurrentAlignment (Some nearRight) (Some smallView) (Some narrowBox) None in
   (ov SLeft = true -> res = if ov STop then BottomRight else TopRight) /\
   (ov SLeft = false -> ov SRight = true -> res = TopLeft \/ res = BottomLeft) /\
   (ov SLeft = false -> ov SRight = false -> ov STop = true -> ov SBottom = true ->
      res = TopCenter) /\
   (ov SLeft = false -> ov SRight = false -> ov STop = false -> ov SBottom = false ->
      res = TopCenter)).
Proof.
  assert (H : isScreenLocationWithinView nearRight smallView = true) by (vm_compute; reflexivity).
  split; [exact H | exact (C6_alignment_rules nearRight smallView narrowBox None H)].
Defined.

(** C9: the current alignment is [null] exactly when the popup is docked, and
    the current dock position is [null] exactly when it is not. *)
Theorem C9_alignment_dock_exclusive (st : FPState) :
  (getCurrentAlignment st = None <-> fp_dockEnabled st = true) /\
  (getCurrentDockPosition st = None <-> fp_dockEnabled st = false).
Proof.
  unfold getCurrentAlignment, getCurrentDockPosition.
  destruct (fp_dockEnabled st), (fp_alignment st); split; split; intros H;
    try reflexivity; discriminate.
Qed.

(** C10: a click with a button other than 0, or delivered while the view has
    no popup or is not ready, leaves the manager as it is: no hit test is
    pending, no popup is opened or closed. *)
Theorem C10_ignored_clicks (env : Services) (v : MView) (st : MState) (b : Click) :
  (c_button b <> 0%Z \/ mv_popup v = false \/ mv_ready v = false) ->
  clickHandler env v st b = st.
Proof.
  intros H. unfold clickHandler.
  destruct H as [H|[H|H]].
  - apply Z.eqb_neq in H. rewrite H. reflexivity.
  - rewrite H, andb_false_r. reflexivity.
  - rewrite H, andb_false_r. reflexivity.
Qed.

Lemma C10_witness :
  clickHandler (envQ pendingQuery) view2D autoclosing clickRight = autoclosing.
Proof. apply C10_ignored_clicks. left. discriminate. Defined.

(** C3 (as stated): with no map point a forced feature still seeds the
    result. Refuted: the forced feature is kept, yet [_showPopup] closes. *)
Lemma C3_counterexample :
  forcedKept view2D (Some forcedTpl) = Some forcedTpl /\
  showPopup (envQ pendingQuery) view2D clickNoMap (Some forcedTpl) = ActClose.
Proof. vm_compute. split; reflexivity. Qed.

(** C3 (amended): for a click with no map point, [_showPopup] dispatches no
    query and opens no popup: it calls [_closePopup], whether or not a forced
    feature was supplied. *)
Theorem C3_no_map_point_closes (env : Services) (v : MView) (b : Click) (a : option Graphic) :
  c_mapPoint b = None -> showPopup env v b a = ActClose.
Proof.
  intros H. unfold showPopup. rewrite H.
  destruct (_ || _); reflexivity.
Qed.

Lemma C3_witness :
  showPopup (envQ pendingQuery) view2D clickNoMap (Some forcedTpl) = ActClose.
Proof. apply C3_no_map_point_closes. reflexivity. Defined.


(** C7 (as stated): crossing the breakpoint down and back gives inverse
    dock-state transitions. Refuted with the default dock options on a view
    that declares breakpoints (width and height breakpoints 544) and a UI
    height of 500: going from width 600 to 500 docks a floating popup, and
    going back to 600 leaves it docked, since the height is still at or
    below its breakpoint. *)
Lemma C7_counterexample :
  do_breakpoint (fp_dockOptions floating600) = Some (mkBreakpoint (Some 544) (Some 544)) /\
  fp_dockEnabled floating600 = false /\
  fp_dockEnabled (resize floating600 500 500) = true /\
  fp_dockEnabled (resize (resize floating600 500 500) 600 500) = true.
Proof. vm_compute. repeat split. Qed.

Lemma Qle_bool_compat (x y c : Q) : x == y -> Qle_bool x c = Qle_bool y c.
Proof.
  intros H. destruct (Qle_bool x c) eqn:E1, (Qle_bool y c) eqn:E2; try reflexivity.
  - apply Qle_bool_iff in E1. rewrite H in E1. apply Qle_bool_iff in E1. congruence.
  - apply Qle_bool_iff in E2. rewrite <- H in E2. apply Qle_bool_iff in E2. congruence.
Qed.

Lemma Qltb_true (x y : Q) : x < y -> Qltb x y = true.
Proof.
  intros H. unfold Qltb. destruct (Qle_bool y x) eqn:E; [|reflexivity].
  apply Qle_bool_iff in E. exfalso. apply (Qlt_not_le x y H E).
Qed.

Lemma Qle_bool_false (x y : Q) : y < x -> Qle_bool x y = false.
Proof.
  intros H. destruct (Qle_bool x y) eqn:E; [|reflexivity].
  apply Qle_bool_iff in E. exfalso. apply (Qlt_not_le y x H E).
Qed.

(** A resize whose UI-safe sizes cross a breakpoint sets [dockEnabled] to
    [_shouldDockAtCurrentViewSize] at the new size; the view gets its new
    size and the dock options stay. *)
Lemma resize_crossed (st : FPState) (dv : DView) (bp : Breakpoint) (w h : Q) :
  fp_view st = Some dv ->
  do_breakpoint (fp_dockOptions st) = Some bp ->
  dockingThresholdCrossed
    (w - (pad_left (v_padding (dv_view dv)) + pad_right (v_padding (dv_view dv))),
     h - (pad_top (v_padding (dv_view dv)) + pad_bottom (v_padding (dv_view dv))))
    (v_width (dv_view dv) - (pad_left (v_padding (dv_view dv)) + pad_right (v_padding (dv_view dv))),
     v_height (dv_view dv) - (pad_top (v_padding (dv_view dv)) + pad_bottom (v_padding (dv_view dv))))
    (Some bp) = true ->
  fp_view (resize st w h) = Some (with_size dv w h) /\
  fp_dockOptions (resize st w h) = fp_dockOptions st /\
  fp_dockEnabled (resize st w h) = shouldDockAtCurrentViewSize bp (with_size dv w h).
Proof.
  intros Hv Hb Hc. unfold resize. rewrite Hv.
  unfold updateDockEnabledForViewSize.
  cbn [fp_dockOptions with_size dv_view v_padding v_width v_height fst snd].
  rewrite Hb, Hc. unfold setDockEnabledForViewSize.
  cbn [fp_dockOptions]. rewrite Hb. cbn [set_dockEnabled fp_view fp_dockOptions fp_dockEnabled].
  auto.
Qed.

(** A resize whose UI-safe sizes cross no breakpoint leaves [dockEnabled]
    as it is; the view gets its new size and the dock options stay. *)
Lemma resize_not_crossed (st : FPState) (dv : DView) (bp : Breakpoint) (w h : Q) :
  fp_view st = Some dv ->
  do_breakpoint (fp_dockOptions st) = Some bp ->
  dockingThresholdCrossed
    (w - (pad_left (v_padding (dv_view dv)) + pad_right (v_padding (dv_view dv))),
     h - (pad_top (v_padding (dv_view dv)) + pad_bottom (v_padding (dv_view dv))))
    (v_width (dv_view dv) - (pad_left (v_padding (dv_view dv)) + pad_right (v_padding (dv_view dv))),
     v_height (dv_view dv) - (pad_top (v_padding (dv_view dv)) + pad_bottom (v_padding (dv_view dv))))
    (Some bp) = false ->
  fp_view (resize st w h) = Some (with_size dv w h) /\
  fp_dockOptions (resize st w h) = fp_dockOptions st /\
  fp_dockEnabled (resize st w h) = fp_dockEnabled st.
Proof.
  intros Hv Hb Hc. unfold resize. rewrite Hv.
  unfold updateDockEnabledForViewSize.
  cbn [fp_dockOptions with_size dv_view v_padding v_width v_height fst snd].
  rewrite Hb, Hc. cbn [fp_view fp_dockOptions fp_dockEnabled]. auto.
Qed.

(** C7 (amended): a breakpoint crossing does not toggle the dock state. A
    resize whose UI-safe size crosses a breakpoint sets [dockEnabled] to
    whether the new UI-safe width or height is at or below its breakpoint,
    and a resize that crosses none leaves it as it is. So resizing from a
    width above the width breakpoint to one at or below it docks the popup,
    whatever the dock state was before, and resizing back sets
    [dockEnabled] to whether the UI height is at or below its height
    breakpoint: the popup is undocked again when it is not (or when there is
    no height breakpoint) and stays docked when it is. *)
Theorem C7_crossing_sets_dock_state (st : FPState) (dv : DView) (bp : Breakpoint) :
  let p := v_padding (dv_view dv) in
  let w1 := v_width (dv_view dv) in
  let h := v_height (dv_view dv) in
  fp_view st = Some dv ->
  do_breakpoint (fp_dockOptions st) = Some bp ->
  (forall w h', dockingThresholdCrossed
                  (w - (pad_left p + pad_right p), h' - (pad_top p + pad_bottom p))
                  (w1 - (pad_left p + pad_right p), h - (pad_top p + pad_bottom p))
                  (Some bp) = true ->
     fp_dockEnabled (resize st w h') = shouldDockAtCurrentViewSize bp (with_size dv w h')) /\
  (forall w h', dockingThresholdCrossed
                  (w - (pad_left p + pad_right p), h' - (pad_top p + pad_bottom p))
                  (w1 - (pad_left p + pad_right p), h - (pad_top p + pad_bottom p))
                  (Some bp) = false ->
     fp_dockEnabled (resize st w h') = fp_dockEnabled st) /\
  (forall bw w2, bp_width bp = Some bw ->
     bw < w1 - (pad_left p + pad_right p) ->
     w2 - (pad_left p + pad_right p) <= bw ->
     fp_dockEnabled (resize st w2 h) = true /\
     fp_dockEnabled (resize (resize st w2 h) w1 h) = le_opt (ui_height dv) (bp_height bp)).
Proof.
  intros p w1 h Hv Hb. split; [|split].
  - intros w h' Hc. exact (proj2 (proj2 (resize_crossed st dv bp w h' Hv Hb Hc))).
  - intros w h' Hc. exact (proj2 (proj2 (resize_not_crossed st dv bp w h' Hv Hb Hc))).
  - intros bw w2 Hw Habove Hbelow.
    assert (Hdown_le : Qle_bool (w2 - (pad_left p + pad_right p)) bw = true)
      by (apply Qle_bool_iff; exact Hbelow).
    assert (Hup_gt : Qltb bw (w1 - (pad_left p + pad_right p)) = true)
      by (apply Qltb_true; exact Habove).
    assert (Hup_le : Qle_bool (w1 - (pad_left p + pad_right p)) bw = false)
      by (apply Qle_bool_false; exact Habove).
    assert (Hc1 : dockingThresholdCrossed
      (w2 - (pad_left p + pad_right p), h - (pad_top p + pad_bottom p))
      (w1 - (pad_left p + pad_right p), h - (pad_top p + pad_bottom p)) (Some bp) = true).
    { unfold dockingThresholdCrossed. rewrite Hw. simpl. rewrite Hdown_le, Hup_gt. reflexivity. }
    destruct (resize_crossed st dv bp w2 h Hv Hb Hc1) as [Hv1 [Hb1 Hd1]].
    split.
    + rewrite Hd1. unfold shouldDockAtCurrentViewSize, ui_width. rewrite Hw. simpl.
      rewrite (Qle_bool_compat _ (w2 - (pad_left p + pad_right p))) by (subst p; ring).
      rewrite Hdown_le. reflexivity.
    + assert (Hc2 : dockingThresholdCrossed
        (w1 - (pad_left p + pad_right p), h - (pad_top p + pad_bottom p))
        (w2 - (pad_left p + pad_right p), h - (pad_top p + pad_bottom p)) (Some bp) = true).
      { unfold dockingThresholdCrossed. rewrite Hw. simpl. rewrite Hdown_le, Hup_gt.
        rewrite Hup_le. simpl. reflexivity. }
      assert (Hb' := Hb). rewrite <- Hb1 in Hb'.
      destruct (resize_crossed (resize st w2 h) (with_size dv w2 h) bp w1 h Hv1 Hb' Hc2)
        as [_ [_ Hd2]].
      rewrite Hd2. unfold shouldDockAtCurrentViewSize. rewrite Hw.
      unfold ui_width. simpl.
      rewrite (Qle_bool_compat _ (w1 - (pad_left p + pad_right p))) by (subst p; ring).
      rewrite Hup_le. reflexivity.
Qed.

Lemma C7_witness :
  (fp_dockEnabled (resize floating600 500 500) = true /\
   fp_dockEnabled (resize (resize floating600 500 500) 600 500) = true) /\
  (fp_dockEnabled (resize floating600nb 500 500) = true /\
   fp_dockEnabled (resize (resize floating600nb 500 500) 600 500) = false).
Proof.
  split.
  - destruct (C7_crossing_sets_dock_state floating600 dview600 (mkBreakpoint (Some 544) (Some 544))
                eq_refl eq_refl) as [_ [_ H]].
    destruct (H 544 500 eq_refl) as [H1 H2];
      [vm_compute; reflexivity | vm_compute; discriminate |].
    split; [exact H1 | etransitivity; [exact H2 | vm_compute; reflexivity]].
  - destruct (C7_crossing_sets_dock_state floating600nb dview600nb (mkBreakpoint (Some 544) None)
                eq_refl eq_refl) as [_ [_ H]].
    destruct (H 544 500 eq_refl) as [H1 H2];
      [vm_compute; reflexivity | vm_compute; discriminate |].
    split; [exact H1 | etransitivity; [exact H2 | vm_compute; reflexivity]].
Defined.


(** C4 (code defect): a forced feature whose popup template comes from its
    layer (the hit-test graphic carries none) is removed from its layer's
    query results by the object-id filter, but is not put in front either,
    since the unshift requires [a.popupTemplate]: the feature the user
    clicked appears zero times. *)
Lemma C4_forced_feature_dropped :
  forcedKept view2D (Some forcedNoTpl) = Some forcedNoTpl /\
  showPopup (envQ pendingQuery) view2D clickMap (Some forcedNoTpl) =
    ActOpen [mkPromise true (Ok [otherFeature])] (Some mp0) /\
  count_oid 7 (settledFeatures [mkPromise true (Ok [otherFeature])]) = 0%nat.
Proof. vm_compute. repeat split. Qed.

(** For comparison: when the hit-test graphic carries its own popup template,
    the same click yields it exactly once, ahead of the query results. *)
Lemma forced_feature_with_template_once :
  showPopup (envQ pendingQuery) view2D clickMap (Some forcedTpl) =
    ActOpen [resolved [forcedTpl]; mkPromise true (Ok [otherFeature])] (Some mp0) /\
  count_oid 7 (settledFeatures [resolved [forcedTpl]; mkPromise true (Ok [otherFeature])]) = 1%nat.
Proof. vm_compute. split; reflexivity. Qed.





(** C1 (as stated): once R2 has started, R1's late settlement does not
    change what R2 displays. Refuted with autoclose on: click 1 lands
    outside the world, click 2 on the feature layer; R2's hit test returns
    first and opens its popup; R1's returns afterwards, finds no map point
    and [_closePopup] removes every popup, R2's included. *)
Lemma C1_counterexample :
  let env := envQ pendingQuery in
  let s2 := clickHandler env view2D (clickHandler env view2D autoclosing clickNoMap) clickMap in
  let s3 := hitTestReturns env view2D s2 1 [] in
  let s4 := hitTestReturns env view2D s3 0 [] in
  ms_pops s3 = [mkPop [mkPromise true (Ok [sameFeature; otherFeature])] (Some mp0) true] /\
  ms_pops s4 = [].
Proof. vm_compute. split; reflexivity. Qed.

Lemma closePopup_pops (st : MState) :
  ms_pops (closePopup st) = ms_pops st \/
  (ms_autoclose st = true /\ ms_pops (closePopup st) = []).
Proof.
  unfold closePopup.
  destruct (ms_autoclose st) eqn:E; simpl; [|left; reflexivity].
  destruct (Nat.ltb 0 (List.length (ms_pops st))); simpl; [right; auto | left; reflexivity].
Qed.

(** C1 (amended): there is no supersession. Whenever a click's hit test
    returns, the manager applies that click's resolution, however many
    later clicks have started meanwhile: existing popups, the newer clicks'
    included, are either left as they are or followed by this click's own new
    popup, or, when autoclose is on, all cleared and removed. A resolution
    never writes into another click's popup. *)
Theorem C1_late_settlement_effects (env : Services) (v : MView) (st : MState)
    (k : nat) (results : list Graphic) :
  let st' := hitTestReturns env v st k results in
  ms_pops st' = ms_pops st \/
  (exists pop, ms_pops st' = (ms_pops st ++ [pop])%list) \/
  (ms_autoclose st = true /\ ms_pops st' = []).
Proof.
  intros st'. subst st'. unfold hitTestReturns.
  destruct (nth_error (ms_pending st) k) as [[b y]|]; [|left; reflexivity].
  set (st1 := mkMState (ms_autoclose st) (ms_pops st) (remove_nth k (ms_pending st))).
  assert (Hc : ms_pops (closePopup st1) = ms_pops st \/
               (ms_autoclose st = true /\ ms_pops (closePopup st1) = [])).
  { exact (closePopup_pops st1). }
  destruct (y || Nat.ltb 0 (List.length results)).
  - unfold applyAction. destruct (showPopup env v b (hd_error results)).
    + right; left. eexists; reflexivity.
    + left; reflexivity.
    + destruct Hc as [H|H]; [left; exact H | right; right; exact H].
  - destruct Hc as [H|H]; [left; exact H | right; right; exact H].
Qed.

End Claims.

(* ------------------------------------------------------------------ *)
(** ** Further properties of the widget and the manager *)

Module Extras.
Import Placement Dock Sources Resolver Manager Styling Lifecycle ToleranceFacts
  Fixtures MoreFixtures.

Local Open Scope Q_scope.

Lemma Qltb_spec (a b : Q) : Qltb a b = true <-> a < b.
Proof.
  unfold Qltb. rewrite negb_true_iff. split; intros H.
  - apply Qnot_le_lt. intros Hle. apply Qle_bool_iff in Hle. congruence.
  - destruct (Qle_bool b a) eqn:E; [|reflexivity].
    apply Qle_bool_iff in E. exfalso. exact (Qlt_not_le _ _ H E).
Qed.

Lemma le_gt_opt_excl (v : Q) (o : option Q) : le_opt v o && gt_opt v o = false.
Proof.
  destruct o as [y|]; simpl; [|reflexivity].
  unfold Qltb. destruct (Qle_bool v y); reflexivity.
Qed.

Lemma resize_dockOptions (st : FPState) (w h : Q) :
  fp_dockOptions (resize st w h) = fp_dockOptions st.
Proof.
  unfold resize. destruct (fp_view st) as [dv|]; [|reflexivity].
  unfold updateDockEnabledForViewSize.
  destruct (dockingThresholdCrossed _ _ _); [|reflexivity].
  unfold setDockEnabledForViewSize. destruct (do_breakpoint _); reflexivity.
Qed.

Lemma resize_no_breakpoint (st : FPState) (w h : Q) :
  do_breakpoint (fp_dockOptions st) = None ->
  fp_dockEnabled (resize st w h) = fp_dockEnabled st.
Proof.
  intros H. unfold resize. destruct (fp_view st) as [dv|]; [|reflexivity].
  unfold updateDockEnabledForViewSize.
  destruct (dockingThresholdCrossed _ _ _); [|reflexivity].
  unfold setDockEnabledForViewSize. cbn [fp_dockOptions]. rewrite H. reflexivity.
Qed.

Lemma not_docked_aligned (st : FPState) :
  fp_dockEnabled st = false -> exists p, getCurrentAlignment st = Some p.
Proof.
  intros H. unfold getCurrentAlignment. rewrite H.
  destruct (fp_alignment st); eexists; reflexivity.
Qed.

Lemma paddingValue_not_auto (p : Q) : paddingValue p <> Auto.
Proof. unfold paddingValue. destruct (Qeq_bool p 0); discriminate. Qed.

(** The invariant kept by the [enabled] and [view] setters. *)
Lemma handles_invariant (ops : list HandleOp) (m : Handles) :
  h_clickHandle m = match h_view m with Some _ => Some (negb (h_enabled m)) | None => None end ->
  let m' := runHandleOps m ops in
  h_clickHandle m' = match h_view m' with Some _ => Some (negb (h_enabled m')) | None => None end.
Proof.
  unfold runHandleOps. revert m. induction ops as [|op ops IH]; intros m H; simpl; [exact H|].
  apply IH. destruct op as [b|v|]; simpl.
  - rewrite H. destruct (h_view m); reflexivity.
  - destruct v; reflexivity.
  - reflexivity.
Qed.

Lemma Qmax_r' (x y : Q) : x <= y -> Qmax x y == y. Proof. apply Q.max_r. Qed.
Lemma Qmax_l' (x y : Q) : y <= x -> Qmax x y == x. Proof. apply Q.max_l. Qed.
Lemma Qmax_distr (c a b : Q) : Qmax c (Qmax a b) == Qmax (Qmax c a) (Qmax c b).
Proof.
  repeat match goal with
  | |- context [Qmax ?u ?v] =>
      lazymatch u with context [Qmax _ _] => fail | _ =>
      lazymatch v with context [Qmax _ _] => fail | _ =>
      destruct (Qlt_le_dec u v);
      [rewrite (Qmax_r' u v) by (apply Qlt_le_weak; assumption)
      | rewrite (Qmax_l' u v) by assumption]
      end end
  end; lra.
Qed.
Lemma around (a e : Q) :
  Qmin (a - e) (a + e) <= a /\ a <= Qmax (a - e) (a + e) /\
  Qmin (a - e) (a + e) + Qmax (a - e) (a + e) == 2 * a /\
  Qmax (a - e) (a + e) - Qmin (a - e) (a + e) == Qmax (- e - e) (e + e).
Proof.
  destruct (Qlt_le_dec e 0).
  - rewrite (Q.min_r (a - e)), (Qmax_l' (a - e)), (Qmax_l' (- e - e)) by lra. lra.
  - rewrite (Q.min_l (a - e)), (Qmax_r' (a - e)), (Qmax_r' (- e - e)) by lra. lra.
Qed.

Lemma extent_around (n : MapPoint) (vt : Q) :
  let e := mkExtent (Qmin (mx n - vt) (mx n + vt)) (Qmin (my n - vt) (my n + vt))
                    (Qmax (mx n - vt) (mx n + vt)) (Qmax (my n - vt) (my n + vt)) in
  (xmin e <= mx n <= xmax e) /\ (ymin e <= my n <= ymax e) /\
  xmin e + xmax e == 2 * mx n /\ ymin e + ymax e == 2 * my n /\
  xmax e - xmin e == ymax e - ymin e.
Proof.
  intros e; cbn [e xmin ymin xmax ymax].
  destruct (around (mx n) vt) as [A1 [A2 [A3 A4]]].
  destruct (around (my n) vt) as [B1 [B2 [B3 B4]]].
  repeat split; try assumption. rewrite A4, B4. reflexivity.
Qed.

Lemma dispatchAll_true (env : Services) (v : MView) (a : option Graphic) (q : Extent)
    (mp : MapPoint) (d : list Source) :
  snd (dispatchAll env v a q mp true d) = true.
Proof.
  induction d as [|c d IH]; simpl; [reflexivity|].
  destruct (dispatch env v a q mp c) as [o tc]. simpl.
  destruct (dispatchAll env v a q mp true d) as [ps t']. exact IH.
Qed.


Lemma dropForced_incl (a : option Graphic) (c : Layer) (b : list Graphic) :
  incl (dropForced a c b) b.
Proof.
  unfold dropForced. destruct a as [a|]; [|apply incl_refl].
  destruct (l_objectIdField c) as [fld|]; [|apply incl_refl].
  destruct (same_layer a c && negb (String.eqb fld "")); [|apply incl_refl].
  intros y Hy. apply filter_In in Hy. exact (proj1 Hy).
Qed.


Lemma closePopup_pending (st : MState) : ms_pending (closePopup st) = ms_pending st.
Proof. unfold closePopup. destruct (_ && _); reflexivity. Qed.

(** X1: the docking-threshold test is symmetric in the new and the old size,
    and no size crosses a threshold from itself. *)
Theorem dockingThresholdCrossed_symmetric_irreflexive (a b : Q * Q) (bp : option Breakpoint) :
  dockingThresholdCrossed a b bp = dockingThresholdCrossed b a bp /\
  dockingThresholdCrossed a a bp = false.
Proof.
  destruct a as [w1 h1], b as [w2 h2].
  destruct bp as [[dw dh]|]; [|split; reflexivity].
  unfold dockingThresholdCrossed; cbn [bp_width bp_height]. split.
  - destruct (le_opt w1 dw), (gt_opt w1 dw), (le_opt w2 dw), (gt_opt w2 dw),
      (le_opt h1 dh), (gt_opt h1 dh), (le_opt h2 dh), (gt_opt h2 dh); reflexivity.
  - pose proof (le_gt_opt_excl w1 dw) as Ew. pose proof (le_gt_opt_excl h1 dh) as Eh.
    destruct (le_opt w1 dw), (gt_opt w1 dw), (le_opt h1 dh), (gt_opt h1 dh);
      simpl in *; try discriminate; reflexivity.
Qed.

(** X2: with [breakpoint: false] in the dock options, no sequence of view
    resizes changes whether the popup is docked. *)
Theorem breakpoint_off_resizes_keep_dock (st : FPState) (xsmall : option Q)
    (position : option DockPos) (sizes : list (Q * Q)) :
  fp_dockOptions st = setDockOptions xsmall position (BPBool false) ->
  fp_dockEnabled (resizes st sizes) = fp_dockEnabled st.
Proof.
  unfold resizes. revert st.
  induction sizes as [|[w h] sizes IH]; intros st H; simpl; [reflexivity|].
  rewrite IH.
  - apply resize_no_breakpoint. rewrite H. reflexivity.
  - rewrite resize_dockOptions. exact H.
Qed.

Lemma breakpoint_off_resizes_keep_dock_witness :
  fp_dockEnabled (resizes noBreakpoint [(500, 400); (700, 600)]) = fp_dockEnabled noBreakpoint.
Proof. apply (breakpoint_off_resizes_keep_dock noBreakpoint (Some 544) None). reflexivity. Defined.

(** X3: the [dockOptions] setter disables docking by size exactly for
    [breakpoint: false]; otherwise the resulting breakpoint always has a
    width. *)
Theorem setDockOptions_width_threshold (xsmall : option Q) (position : option DockPos)
    (breakpoint : BPInput) :
  (do_breakpoint (setDockOptions xsmall position breakpoint) = None <-> breakpoint = BPBool false) /\
  (forall bp, do_breakpoint (setDockOptions xsmall position breakpoint) = Some bp ->
              exists w, bp_width bp = Some w).
Proof.
  destruct breakpoint as [|[|]|w h]; simpl; split;
    try (split; intros; congruence);
    intros bp E; try discriminate E; injection E as <-; simpl;
    try (destruct w); destruct xsmall; eexists; reflexivity.
Qed.

(** X4: without view breakpoints and without a height in the dock options,
    docking by size ignores the view's height. *)
Theorem no_height_threshold_width_only (position : option DockPos) (breakpoint : BPInput)
    (w1 h1 w2 h2 h1' h2' : Q) :
  (forall w h, breakpoint = BPObj w h -> h = None) ->
  dockingThresholdCrossed (w1, h1) (w2, h2) (do_breakpoint (setDockOptions None position breakpoint)) =
  dockingThresholdCrossed (w1, h1') (w2, h2') (do_breakpoint (setDockOptions None position breakpoint)).
Proof.
  intros H. destruct breakpoint as [|[|]|w h]; try reflexivity.
  rewrite (H w h eq_refl). destruct w; reflexivity.
Qed.

Lemma no_height_threshold_width_only_witness :
  dockingThresholdCrossed (500, 400) (600, 800)
    (do_breakpoint (setDockOptions None None (BPObj (Some 550) None))) =
  dockingThresholdCrossed (500, 900) (600, 100)
    (do_breakpoint (setDockOptions None None (BPObj (Some 550) None))).
Proof.
  apply (no_height_threshold_width_only None (BPObj (Some 550) None)).
  intros w h E. injection E as _ <-. reflexivity.
Defined.


(** X6: exactly one of [_wouldDockTo] and [_getCurrentDockPosition] is
    set. *)
Theorem wouldDockTo_currentDockPosition_exclusive (st : FPState) :
  (wouldDockTo st = None <-> exists p, getCurrentDockPosition st = Some p) /\
  (getCurrentDockPosition st = None <-> exists p, wouldDockTo st = Some p).
Proof.
  unfold wouldDockTo, getCurrentDockPosition.
  destruct (fp_dockEnabled st); simpl; split; split;
    intros H; try discriminate; try (destruct H; discriminate); eauto.
Qed.

(** X7: a docked popup's container style is pinned by the view padding:
    the same whatever the screen location and box, and never ["auto"]. *)
Theorem docked_style_pinned (st : FPState) (dv : DView) :
  fp_dockEnabled st = true -> fp_view st = Some dv ->
  exists ps, (forall s box, calculatePositionStyle st s box = Some ps) /\
    ps_top ps <> Auto /\ ps_left ps <> Auto /\ ps_bottom ps <> Auto /\ ps_right ps <> Auto.
Proof.
  intros Hd Hv. eexists. split.
  - intros s box. unfold calculatePositionStyle. rewrite Hv, Hd. reflexivity.
  - cbn [ps_top ps_left ps_bottom ps_right].
    repeat split; apply paddingValue_not_auto.
Qed.

Lemma docked_style_pinned_witness :
  exists ps, (forall s box, calculatePositionStyle dockedPadded s box = Some ps) /\
    ps_top ps <> Auto /\ ps_left ps <> Auto /\ ps_bottom ps <> Auto /\ ps_right ps <> Auto.
Proof. apply (docked_style_pinned dockedPadded paddedView); reflexivity. Defined.

(** X8: a floating popup with a screen location and a measured box always
    gets a style; one vertical edge sits 16 px (the pointer offset) beyond
    the anchor, and horizontally the popup is either 16 px beside the anchor
    or centred on it (half the box width, without the offset), the other
    edges being ["auto"]. *)
Theorem floating_style_pointer_gap (st : FPState) (dv : DView) (s : ScreenPoint) (w : Q) :
  fp_dockEnabled st = false -> fp_view st = Some dv ->
  exists ps, calculatePositionStyle st (Some s) (Some w) = Some ps /\
    ((ps_top ps = Px (sp_y s + pointerOffsetInPx) /\ ps_bottom ps = Auto) \/
     (ps_top ps = Auto /\
      ps_bottom ps = Px (v_height (dv_view dv) - sp_y s + pointerOffsetInPx))) /\
    ((ps_left ps = Px (sp_x s + pointerOffsetInPx) /\ ps_right ps = Auto) \/
     (ps_left ps = Auto /\
      ps_right ps = Px (v_width (dv_view dv) - sp_x s + pointerOffsetInPx)) \/
     (ps_left ps = Px (sp_x s - w / 2) /\ ps_right ps = Auto)).
Proof.
  intros Hd Hv. destruct (not_docked_aligned st Hd) as [p Hp].
  unfold calculatePositionStyle. rewrite Hv, Hd, Hp.
  destruct p; eexists; (split; [reflexivity|]); cbn [ps_top ps_left ps_bottom ps_right];
    split; repeat (first [left; split; reflexivity | right]); split; reflexivity.
Qed.

Lemma floating_style_pointer_gap_witness :
  exists ps, calculatePositionStyle floatingPadded (Some (mkScreenPoint 300 250)) (Some 40) = Some ps /\
    ((ps_top ps = Px (250 + pointerOffsetInPx) /\ ps_bottom ps = Auto) \/
     (ps_top ps = Auto /\ ps_bottom ps = Px (500 - 250 + pointerOffsetInPx))) /\
    ((ps_left ps = Px (300 + pointerOffsetInPx) /\ ps_right ps = Auto) \/
     (ps_left ps = Auto /\ ps_right ps = Px (600 - 300 + pointerOffsetInPx)) \/
     (ps_left ps = Px (300 - 40 / 2) /\ ps_right ps = Auto)).
Proof.
  apply (floating_style_pointer_gap floatingPadded paddedView (mkScreenPoint 300 250) 40);
    reflexivity.
Defined.

(** X9: whatever sequence of [enabled] / [view] assignments and [destroy]
    calls the manager goes through, it has a click handle exactly when it has
    a view, and it receives clicks exactly when it is enabled and has a
    view. *)
Theorem click_handle_tracks_view_and_enabled (ops : list HandleOp) :
  let m := runHandleOps initialHandles ops in
  (h_clickHandle m = None <-> h_view m = None) /\
  receivesClicks m = h_enabled m && match h_view m with Some _ => true | None => false end.
Proof.
  intros m. pose proof (handles_invariant ops initialHandles eq_refl) as H.
  fold m in H. unfold receivesClicks. rewrite H.
  destruct (h_view m), (h_enabled m); simpl; split; try split; intros; congruence.
Qed.

(** X10: with [autoclose], [closeAll] keeps every popup in [floatpops] but
    clears and hides each one. *)
Theorem closeAll_hides_keeps (st : MState) :
  ms_autoclose st = true ->
  List.length (ms_pops (closeAll st)) = List.length (ms_pops st) /\
  Forall (fun p => pop_visible p = false /\ pop_promises p = []) (ms_pops (closeAll st)) /\
  ms_pending (closeAll st) = ms_pending st.
Proof.
  intros H. unfold closeAll. rewrite H. cbn [andb].
  destruct (Nat.ltb 0 (List.length (ms_pops st))) eqn:E.
  - cbn [ms_pops ms_pending]. rewrite length_map.
    split; [reflexivity|]. split; [|reflexivity].
    apply Forall_forall. intros y Hy. apply in_map_iff in Hy.
    destruct Hy as [z [<- _]]. split; reflexivity.
  - apply Nat.ltb_ge in E.
    destruct (ms_pops st) eqn:Ep; [|simpl in E; lia].
    split; [reflexivity|]. split; [constructor | reflexivity].
Qed.

Lemma closeAll_hides_keeps_witness :
  List.length (ms_pops (closeAll twoOpen)) = List.length (ms_pops twoOpen) /\
  Forall (fun p => pop_visible p = false /\ pop_promises p = []) (ms_pops (closeAll twoOpen)) /\
  ms_pending (closeAll twoOpen) = ms_pending twoOpen.
Proof. apply closeAll_hides_keeps. reflexivity. Defined.

(** X11: the query extent around the map point is a square centred on it. *)
Theorem toleranceExtent_square_centred (v : MView) (tol : Q) (n : MapPoint) :
  let e := toleranceExtent v tol n in
  (xmin e <= mx n <= xmax e) /\ (ymin e <= my n <= ymax e) /\
  xmin e + xmax e == 2 * mx n /\ ymin e + ymax e == 2 * my n /\
  xmax e - xmin e == ymax e - ymin e.
Proof.
  intros e. unfold e, toleranceExtent. cbv zeta. apply extent_around.
Qed.

(** X12: the click tolerance of two source lists together is the larger of
    their tolerances. *)
Theorem calculateClickTolerance_app (b1 b2 : list Source) :
  calculateClickTolerance (b1 ++ b2)%list ==
  Qmax (calculateClickTolerance b1) (calculateClickTolerance b2).
Proof.
  rewrite !calculateClickTolerance_eq. unfold maxSymbolOffset.
  rewrite flat_map_app. fold (F (flat_map rendererOffsets b1 ++ flat_map rendererOffsets b2)%list).
  rewrite F_app. apply Qmax_distr.
Qed.

(** X13: every layer among the query candidates is loaded and has a layer
    view that is not suspended and, in a 3D view, is draped. *)
Theorem candidate_layers_queryable (v : MView) (c : Layer) :
  In (SrcLayer c) (candidates v) ->
  l_loaded c = true /\
  exists lv, findLayerView v c = Some lv /\ lv_suspended lv = false /\
             (mv_3d v = true -> lv_hasDraped lv = true).
Proof.
  intros H. apply Claims.candidates_keep in H. unfold keep, g, x in H.
  destruct (findLayerView v c) as [lv|]; [|discriminate].
  apply andb_true_iff in H as [H1 H2].
  apply andb_true_iff in H1 as [H1 _]. apply andb_true_iff in H1 as [Hl Hs].
  split; [exact Hl|]. exists lv. split; [reflexivity|].
  split; [apply negb_true_iff; exact Hs|].
  intros H3. rewrite H3 in H2. destruct (lv_hasDraped lv); [reflexivity | discriminate].
Qed.

Lemma candidate_layers_queryable_witness :
  l_loaded featureLayer = true /\
  exists lv, findLayerView view3D featureLayer = Some lv /\ lv_suspended lv = false /\
             (mv_3d view3D = true -> lv_hasDraped lv = true).
Proof.
  apply (candidate_layers_queryable view3D featureLayer). vm_compute. left; reflexivity.
Defined.



(** X15: a kept hit-test feature with a popup template of its own, outside a
    scene layer, always opens a popup at the map point whose first promise
    is that feature. *)
Theorem forced_feature_with_template_first (env : Services) (v : MView) (b : Click)
    (a0 : option Graphic) (a : Graphic) (n : MapPoint) :
  forcedKept v a0 = Some a -> g_popupTemplate a = true ->
  (forall l, g_layer a = Some l -> String.eqb "scene" (l_type l) = false) ->
  c_mapPoint b = Some n ->
  exists ps, showPopup env v b a0 = ActOpen ps (Some n) /\ hd_error ps = Some (resolved [a]).
Proof.
  intros Hf Ht Hl Hn.
  assert (Hu : forall p, unshiftForced env (Some a) p = resolved [a] :: p).
  { intros p. unfold unshiftForced. destruct (g_layer a) as [l|] eqn:El.
    - rewrite (Hl l eq_refl), Ht. reflexivity.
    - rewrite Ht. reflexivity. }
  unfold showPopup. rewrite Hf, orb_true_r, Hn. unfold resolvePromises.
  destruct (mv_3d v && true).
  - rewrite Hu. cbn [List.length Nat.ltb]. rewrite orb_true_r. eexists; split; reflexivity.
  - pose proof (dispatchAll_true env v (Some a)
      (toleranceExtent v (calculateClickTolerance (candidates v)) n) n (candidates v)) as Ht'.
    destruct (dispatchAll _ _ _ _ _ _ _) as [p t]. cbn [snd] in Ht'. subst t.
    rewrite Hu, orb_true_r. cbn [List.length]. eexists; split; reflexivity.
Qed.

Lemma forced_feature_with_template_first_witness :
  exists ps, showPopup (envQ pendingQuery) view2D clickMap (Some forcedTpl) = ActOpen ps (Some mp0) /\
             hd_error ps = Some (resolved [forcedTpl]).
Proof.
  apply (forced_feature_with_template_first (envQ pendingQuery) view2D clickMap
           (Some forcedTpl) forcedTpl mp0); try reflexivity.
  intros l E. injection E as <-. reflexivity.
Defined.



(** X17: the [queryFeatures] callback only ever keeps features the query
    returned, and, for a hit-test feature of the same layer with an object-id
    field, none sharing its object id. *)
Theorem queryCallback_subset_drops_forced (v : MView) (a : option Graphic) (c : Layer)
    (features r : list Graphic) :
  queryCallback v a c features = Ok r ->
  incl r features /\
  (forall a' fld, a = Some a' -> l_objectIdField c = Some fld -> String.eqb fld "" = false ->
     same_layer a' c = true ->
     forall y, In y r -> optZ_eqb (attr y (Some fld)) (attr a' (Some fld)) = false).
Proof.
  intros H. split.
  - unfold queryCallback in H. destruct a as [a|].
    + injection H as <-. exact (dropForced_incl (Some a) c features).
    + destruct (findLayerView v c) as [lv|]; [|discriminate].
      destruct (lv_graphics3D lv) as [h|]; injection H as <-.
      * intros y Hy. apply filter_In in Hy. exact (dropForced_incl None c features y (proj1 Hy)).
      * exact (dropForced_incl None c features).
  - intros a' fld -> Hf He Hs y Hy. unfold queryCallback in H. injection H as <-.
    unfold dropForced in Hy. rewrite Hf, Hs, He in Hy. cbn [andb negb] in Hy.
    apply filter_In in Hy. apply negb_true_iff, (proj2 Hy).
Qed.

Lemma queryCallback_subset_drops_forced_witness :
  incl [otherFeature] [sameFeature; otherFeature] /\
  (forall a' fld, Some forcedTpl = Some a' -> l_objectIdField featureLayer = Some fld ->
     String.eqb fld "" = false -> same_layer a' featureLayer = true ->
     forall y, In y [otherFeature] -> optZ_eqb (attr y (Some fld)) (attr a' (Some fld)) = false).
Proof.
  apply (queryCallback_subset_drops_forced view2D (Some forcedTpl) featureLayer
           [sameFeature; otherFeature]).
  vm_compute. reflexivity.
Defined.



(** X19: a popup that fits the view's padded width cannot overflow both the
    left and the right edge, and one at most half the padded height tall
    cannot overflow both the top and the bottom edge. *)
Theorem popup_fitting_overflows_one_side (h w : Q) (s : ScreenPoint) (vw : View) :
  (w <= v_width vw - pad_left (v_padding vw) - pad_right (v_padding vw) ->
   isOutsideView h w s SLeft vw && isOutsideView h w s SRight vw = false) /\
  (2 * h <= v_height vw - pad_top (v_padding vw) - pad_bottom (v_padding vw) ->
   isOutsideView h w s STop vw && isOutsideView h w s SBottom vw = false).
Proof.
  unfold isOutsideView. split; intros H.
  - destruct (Qltb (sp_x s - w / 2) _) eqn:E1; [|reflexivity].
    destruct (Qltb (v_width vw - _) _) eqn:E2; [|reflexivity].
    apply Qltb_spec in E1, E2. change (w / 2) with (w * (1 # 2)) in E1, E2. exfalso. lra.
  - destruct (Qltb (sp_y s - h) _) eqn:E1; [|reflexivity].
    destruct (Qltb (v_height vw - _) _) eqn:E2; [|reflexivity].
    apply Qltb_spec in E1, E2. exfalso. lra.
Qed.

Lemma popup_fitting_overflows_one_side_witness :
  isOutsideView 20 56 nearLeft SLeft smallView && isOutsideView 20 56 nearLeft SRight smallView = false.
Proof.
  apply (proj1 (popup_fitting_overflows_one_side 20 56 nearLeft smallView)).
  vm_compute. discriminate.
Defined.

End Extras.
